(** * dynr53: the dynamic-DNS update handler of [lambda/index.py]

    A shallow embedding of the request pipeline of [index.py]
    (credential check, target IP, hosted-zone lookup, record
    reconciliation) and the properties of it that the specification
    states.

    Conventions of the embedding.
    - Python [str] values are [string]s; [secrets.compare_digest] on the
      UTF-8 encodings is equality of the strings.
    - The module-level state of the process is the [lru_cache] slot of
      [get_admin_password].  [get_r53_client] is cached too, but building
      a client contacts nobody and the handle carries no data, so it is
      left out.
    - The secret store and the DNS provider are external.  The DNS
      provider is an interface ([Provider]); [R53] is a reference
      instance with the create-or-replace reading of UPSERT, which keeps
      a name as it is given but for the trailing dot (the case folding
      and the escaping that Route 53 applies to names are not
      modelled).  Calls to the provider return: transport, throttling
      and authorization failures of the provider are not modelled.
    - Every call that leaves the process is appended to a [trace], so that
      "no provider call is made" is a statement about that trace.
    - A raised exception is a value of [exn]; the framework turns an
      [HTTPException] into a response with that status code, headers and
      detail, and anything else into a 500. *)

From Stdlib Require Import ZArith NArith Ascii String List Bool.
From Stdlib Require Import DecimalString HexadecimalString.
From stdpp Require Import base strings gmap list.
Import ListNotations.
Open Scope string_scope.
Open Scope list_scope.
Open Scope Z_scope.

(** ** Strings *)

Module Str.

(** [s.split(sep, 1)]: at most one split, at the first separator. *)
Fixpoint split_1 (sep : ascii) (s : string) : list string :=
  match s with
  | EmptyString => [EmptyString]
  | String c r =>
      if Ascii.eqb c sep then [EmptyString; r]
      else match split_1 sep r with
           | h :: t => String c h :: t
           | [] => [String c EmptyString]
           end
  end.

Definition chars (s : string) : list ascii := list_ascii_of_string s.

Definition has_char (c : ascii) (s : string) : bool :=
  existsb (Ascii.eqb c) (chars s).

Fixpoint starts (p l : list ascii) : bool :=
  match p, l with
  | [], _ => true
  | a :: p', b :: l' => Ascii.eqb a b && starts p' l'
  | _ :: _, [] => false
  end.

(** [s.endswith(suffix)], read from the last character backwards. *)
Definition endswith (s suffix : string) : bool :=
  starts (rev (chars suffix)) (rev (chars s)).

End Str.

(** ** JMESPath raw string literals

    The handler builds its JMESPath expressions with f-strings, placing a
    text between single quotes.  The text is the content of that raw
    literal when it holds neither a quote nor a backslash; with one of
    them the literal ends early and the expression is another one, which
    the embedding does not follow ([NotALiteral]). *)

Definition raw_literal_char (c : ascii) : bool :=
  negb (Ascii.eqb c "'") && negb (Ascii.eqb c "\").

Definition raw_literal (text : string) : option string :=
  if forallb raw_literal_char (Str.chars text) then Some text else None.

(** ** Data of the DNS provider, as the responses carry it *)

Record HostedZone := { zone_Name : string; zone_Id : string }.

Record ResourceRecord := { Value : string }.

(** A record set of the provider.  An alias set, which has no
    [ResourceRecords] member, is a set with no records: the search of
    [is_existing_record_exists] drops the null it would give. *)
Record ResourceRecordSet := {
  rrs_Name : string;
  rrs_Type : string;
  rrs_TTL : Z;
  rrs_ResourceRecords : list ResourceRecord
}.

Record Change := { Action : string; change_ResourceRecordSet : ResourceRecordSet }.

(** The part of the boto3 Route 53 client that the handler uses.
    [list_hosted_zones] gives the pages of the paginator, in order;
    [list_resource_record_sets] is the single page that the un-paginated
    call returns. *)
Class Provider := {
  dns_state : Type;
  list_hosted_zones : dns_state -> list (list HostedZone);
  list_resource_record_sets :
    dns_state -> string -> string -> string -> list ResourceRecordSet;
  change_resource_record_sets : dns_state -> string -> list Change -> dns_state
}.

(** [pydantic.networks.IPvAnyAddress]: the constructor, which raises on a
    text that is no IP literal, and [str]. *)
Class IPLib := {
  IPvAnyAddress : Type;
  ip_parse : string -> option IPvAnyAddress;
  ip_str : IPvAnyAddress -> string
}.

(** ** The secret store *)

Inductive SecretString :=
| NotJson
| JsonObject (fields : gmap string string).

Inductive SecretsBackend :=
| Unreachable
| Serving (secrets : gmap string SecretString).

(** ** Requests, responses, exceptions *)

Record HTTPBasicCredentials := { username : string; password : string }.

(** Starlette keeps the raw header list, names in lower case. *)
Record Request := { headers : list (string * string) }.

Record PlainTextResponse := { body : string; status_code : Z }.

Definition PlainText (message : string) : PlainTextResponse :=
  {| body := message; status_code := 200 |}.

Inductive exn :=
| HTTPException (status : Z) (detail : string) (hdrs : list (string * string))
| GetParameterError (name : string)
| JSONDecodeError
| KeyError (key : string)
| PydanticCustomError (kind : string)
| NotALiteral (text : string).

Definition HTTP_401_UNAUTHORIZED : Z := 401.
Definition HTTP_400_BAD_REQUEST : Z := 400.

Inductive result (A : Type) :=
| Ok (a : A)
| Raise (e : exn).
Arguments Ok {A} a.
Arguments Raise {A} e.

(** The status the client sees. *)
Definition http_status (r : result PlainTextResponse) : Z :=
  match r with
  | Ok resp => status_code resp
  | Raise (HTTPException s _ _) => s
  | Raise _ => 500
  end.

(** ** Calls that leave the process *)

Inductive Event :=
| GetSecret (name : string)
| ListHostedZonesByName (DNSName : string)
| ListHostedZones
| ListResourceRecordSets (HostedZoneId StartRecordName StartRecordType : string)
| ChangeResourceRecordSets (HostedZoneId : string) (Changes : list Change).

Definition is_dns_call (e : Event) : bool :=
  match e with
  | GetSecret _ => false
  | _ => true
  end.

Definition is_mutating_call (e : Event) : bool :=
  match e with
  | ChangeResourceRecordSets _ _ => true
  | _ => false
  end.

Definition dns_calls (t : list Event) : list Event := List.filter is_dns_call t.
Definition mutating_calls (t : list Event) : list Event :=
  List.filter is_mutating_call t.

(** ** The world a request runs in, and the monad of the handler *)

Section Handler.

Context {IP : IPLib} {DNS : Provider}.

Record World := {
  secrets_backend : SecretsBackend;
  admin_password_cache : option string;
  dns : dns_state;
  trace : list Event
}.

Definition M (A : Type) : Type := World -> result A * World.

Definition ret {A} (a : A) : M A := fun w => (Ok a, w).

Definition raise {A} (e : exn) : M A := fun w => (Raise e, w).

Definition bind {A B} (m : M A) (k : A -> M B) : M B :=
  fun w =>
    match m w with
    | (Ok a, w') => k a w'
    | (Raise e, w') => (Raise e, w')
    end.

Notation "x <- m ;; k" := (bind m (fun x => k))
  (at level 100, m at next level, right associativity).
Notation "m ;;; k" := (bind m (fun _ => k))
  (at level 100, right associativity).

Definition call (e : Event) : M unit :=
  fun w =>
    (Ok tt,
     {| secrets_backend := secrets_backend w;
        admin_password_cache := admin_password_cache w;
        dns := dns w;
        trace := trace w ++ [e] |}).

Definition read_dns {A} (f : dns_state -> A) : M A := fun w => (Ok (f (dns w)), w).

Definition write_dns (f : dns_state -> dns_state) : M unit :=
  fun w =>
    (Ok tt,
     {| secrets_backend := secrets_backend w;
        admin_password_cache := admin_password_cache w;
        dns := f (dns w);
        trace := trace w |}).

Definition literal (text : string) : M string :=
  match raw_literal text with
  | Some s => ret s
  | None => raise (NotALiteral text)
  end.

(** *** [get_admin_password] *)

(** [parameters.get_secret(name)] *)
Definition get_secret (name : string) : M SecretString :=
  call (GetSecret name) ;;;
  fun w =>
    match secrets_backend w with
    | Unreachable => (Raise (GetParameterError name), w)
    | Serving secrets =>
        match secrets !! name with
        | Some s => (Ok s, w)
        | None => (Raise (GetParameterError name), w)
        end
    end.

Definition json_loads (s : SecretString) : M (gmap string string) :=
  match s with
  | NotJson => raise JSONDecodeError
  | JsonObject fields => ret fields
  end.

(** The body of [get_admin_password], without its decorator. *)
Definition fetch_admin_password : M string :=
  s <- get_secret "dynr53/users/admin" ;;
  admin_user_secret <- json_loads s ;;
  match admin_user_secret !! "password" with
  | Some p => ret p
  | None => raise (KeyError "password")
  end.

(** [functools.lru_cache()] on a function of no argument: one slot, filled
    by a call that returns, left empty by a call that raises. *)
Definition lru_cache (body : M string) : M string :=
  fun w =>
    match admin_password_cache w with
    | Some p => (Ok p, w)
    | None =>
        match body w with
        | (Ok p, w') =>
            (Ok p,
             {| secrets_backend := secrets_backend w';
                admin_password_cache := Some p;
                dns := dns w';
                trace := trace w' |})
        | (Raise e, w') => (Raise e, w')
        end
    end.

Definition get_admin_password : M string := lru_cache fetch_admin_password.

(** *** [validate_credentials] *)

Definition compare_digest (a b : string) : bool := String.eqb a b.

Definition validate_credentials (credentials : HTTPBasicCredentials) : M unit :=
  let username_checks := compare_digest "admin" (username credentials) in
  admin_password <- get_admin_password ;;
  let password_checks := compare_digest admin_password (password credentials) in
  if negb (username_checks && password_checks)
  then raise (HTTPException HTTP_401_UNAUTHORIZED "badauth"
                [("WWW-Authenticate", "Basic")])
  else ret tt.

(** *** [get_ip_from_headers] *)

(** [request.headers[key]]: the value of the first header of that name. *)
Fixpoint headers_getitem (l : list (string * string)) (key : string) : option string :=
  match l with
  | [] => None
  | (k, v) :: rest => if String.eqb k key then Some v else headers_getitem rest key
  end.

Definition get_ip_from_headers (request : Request) : M IPvAnyAddress :=
  match headers_getitem (headers request) "x-forwarded-for" with
  | Some v =>
      match ip_parse v with
      | Some ip => ret ip
      | None => raise (PydanticCustomError "ip_any_address")
      end
  | None =>
      raise (HTTPException HTTP_400_BAD_REQUEST
               "IP can not be determined from x-forward-for header" [])
  end.

(** *** [get_hosted_zone_id_from_fqdn] *)

(** [hostname.split('.', 1)[-1]] *)
Definition zone_name_of (hostname : string) : string :=
  default hostname (last (Str.split_1 "." hostname)).

(** [HostedZones[?Name == '<lit>'][Id]] on one page. *)
Definition search_zone_page (lit : string) (page : list HostedZone) : list (list string) :=
  map (fun z => [zone_Id z]) (List.filter (fun z => String.eqb (zone_Name z) lit) page).

(** [response_iterator.search(...)], then [list(...)]. *)
Definition search_zones (lit : string) (pages : list (list HostedZone)) : list (list string) :=
  concat (map (search_zone_page lit) pages).

Definition get_hosted_zone_id_from_fqdn (hostname : string) : M string :=
  let zone_name := zone_name_of hostname in
  call (ListHostedZonesByName zone_name) ;;;
  lit <- literal (zone_name +:+ ".") ;;
  call ListHostedZones ;;;
  pages <- read_dns list_hosted_zones ;;
  match search_zones lit pages with
  | (zone_id :: _) :: _ => ret zone_id
  | _ =>
      raise (HTTPException HTTP_400_BAD_REQUEST
               ("Hosted zone " +:+ zone_name +:+ " not found") [])
  end.

(** *** [update_r53_record] *)

Definition dns_ttl : Z := 60.

Definition upsert_batch (hostname : string) (ip : IPvAnyAddress) : list Change :=
  [ {| Action := "UPSERT";
       change_ResourceRecordSet :=
         {| rrs_Name := hostname;
            rrs_Type := "A";
            rrs_TTL := dns_ttl;
            rrs_ResourceRecords := [ {| Value := ip_str ip |} ] |} |} ].

Definition update_r53_record (hostname hosted_zone_id : string) (ip : IPvAnyAddress) : M unit :=
  call (ChangeResourceRecordSets hosted_zone_id (upsert_batch hostname ip)) ;;;
  write_dns (fun d => change_resource_record_sets d hosted_zone_id (upsert_batch hostname ip)).

(** *** [is_existing_record_exists] *)

(** [ResourceRecordSets[?Name == '<name>'][ResourceRecords][][?Value == '<ip>'][]]:
    a filter projecting each set on the one-element list of its records,
    a flatten, a filter inside each list of records, a flatten. *)
Definition search_records (name_lit ip_lit : string) (sets : list ResourceRecordSet)
  : list ResourceRecord :=
  let selected := List.filter (fun rs => String.eqb (rrs_Name rs) name_lit) sets in
  let projected := map (fun rs => [rrs_ResourceRecords rs]) selected in
  let flat := concat projected in
  let filtered := map (List.filter (fun r => String.eqb (Value r) ip_lit)) flat in
  concat filtered.

Definition truthy {A} (l : list A) : bool :=
  match l with
  | [] => false
  | _ :: _ => true
  end.

Definition is_existing_record_exists (hostname hosted_zone_id : string) (ip : IPvAnyAddress)
  : M bool :=
  call (ListResourceRecordSets hosted_zone_id hostname "A") ;;;
  response <- read_dns (fun d => list_resource_record_sets d hosted_zone_id hostname "A") ;;
  name_lit <- literal (hostname +:+ ".") ;;
  ip_lit <- literal (ip_str ip) ;;
  let existing_match := search_records name_lit ip_lit response in
  if truthy existing_match then ret true else ret false.

(** *** [update] *)

(** Lines 182-183: [if not myip: myip = get_ip_from_headers(request)].
    An address object is never falsy, so [not myip] is [myip is None]. *)
Definition target_ip (request : Request) (myip : option IPvAnyAddress) : M IPvAnyAddress :=
  match myip with
  | None => get_ip_from_headers request
  | Some ip => ret ip
  end.

Definition update (request : Request) (hostname : string) (myip : option IPvAnyAddress)
  : M PlainTextResponse :=
  myip <- target_ip request myip ;;
  hosted_zone_id <- get_hosted_zone_id_from_fqdn hostname ;;
  ere <- is_existing_record_exists hostname hosted_zone_id myip ;;
  if ere
  then ret (PlainText ("nochg " +:+ ip_str myip))
  else
    update_r53_record hostname hosted_zone_id myip ;;;
    ret (PlainText ("good " +:+ ip_str myip)).

(** The route [GET /nic/update]: the dependency [validate_credentials]
    runs first, the body [update] after it.  The framework hands over the
    parameters as the signature types them: the credentials of the
    [Authorization] header (a request without them is answered 401 by
    [HTTPBasic] and reaches neither function), [hostname] as a [str] and
    [myip] as an address or [None] (a [myip] that is no IP literal is
    refused with 422 before the body runs). *)
Definition nic_update (credentials : HTTPBasicCredentials) (request : Request)
    (hostname : string) (myip : option IPvAnyAddress) : M PlainTextResponse :=
  validate_credentials credentials ;;;
  update request hostname myip.

End Handler.

Arguments World {DNS}.
Arguments M {DNS} A.

(** A name as the provider keeps and returns it: one trailing dot after
    a non-empty name. *)
Definition normalized_name (n : string) : bool :=
  Str.endswith n "." && negb (Str.endswith n "..") && negb (String.eqb n ".").

(** ** A reference DNS provider

    Record sets are kept per hosted zone; a name is stored with its
    trailing dot; UPSERT creates the set of that name and type or
    replaces it whole.  The listing of record sets is given as one page
    holding the sets of the zone: the order of the listing and its
    truncation to a page are not modelled, and the zones come as one
    page. *)

Module R53.

Record state := {
  hosted_zones : list HostedZone;
  record_sets : gmap string (list ResourceRecordSet)
}.

Definition normalize_name (n : string) : string :=
  if Str.endswith n "." then n else n +:+ ".".

Definition normalize_set (rs : ResourceRecordSet) : ResourceRecordSet :=
  {| rrs_Name := normalize_name (rrs_Name rs);
     rrs_Type := rrs_Type rs;
     rrs_TTL := rrs_TTL rs;
     rrs_ResourceRecords := rrs_ResourceRecords rs |}.

Definition same_key (a b : ResourceRecordSet) : bool :=
  String.eqb (rrs_Name a) (rrs_Name b) && String.eqb (rrs_Type a) (rrs_Type b).

Fixpoint upsert (rs : ResourceRecordSet) (l : list ResourceRecordSet)
  : list ResourceRecordSet :=
  match l with
  | [] => [rs]
  | x :: rest => if same_key x rs then rs :: rest else x :: upsert rs rest
  end.

Definition apply_change (l : list ResourceRecordSet) (c : Change)
  : list ResourceRecordSet :=
  let rs := normalize_set (change_ResourceRecordSet c) in
  if String.eqb (Action c) "UPSERT" then upsert rs l
  else if String.eqb (Action c) "CREATE" then
    (if existsb (fun x => same_key x rs) l then l else l ++ [rs])
  else if String.eqb (Action c) "DELETE" then
    List.filter (fun x => negb (same_key x rs)) l
  else l.

Definition sets_of (st : state) (zone_id : string) : list ResourceRecordSet :=
  default [] (record_sets st !! zone_id).

Definition known_zone (st : state) (zone_id : string) : bool :=
  existsb (fun z => String.eqb (zone_Id z) zone_id) (hosted_zones st).

Definition change (st : state) (zone_id : string) (batch : list Change) : state :=
  if known_zone st zone_id then
    {| hosted_zones := hosted_zones st;
       record_sets :=
         <[zone_id := fold_left apply_change batch (sets_of st zone_id)]> (record_sets st) |}
  else st.

Definition wf (st : state) : Prop :=
  forall z, In z (hosted_zones st) -> normalized_name (zone_Name z) = true.

Definition create_hosted_zone (st : state) (name id : string) : state :=
  {| hosted_zones := hosted_zones st ++ [ {| zone_Name := normalize_name name; zone_Id := id |} ];
     record_sets := record_sets st |}.

Definition empty : state := {| hosted_zones := []; record_sets := ∅ |}.

End R53.

#[export] Instance R53_provider : Provider := {|
  dns_state := R53.state;
  list_hosted_zones st := [R53.hosted_zones st];
  list_resource_record_sets st zone_id _ _ := R53.sets_of st zone_id;
  change_resource_record_sets := R53.change
|}.

(** ** A reference address library

    Addresses as [ipaddress] holds and prints them: four octets in dotted
    decimal, eight hextets in lower-case hexadecimal with the longest run
    of two or more zero hextets (the first of the longest) written [::].
    The parser takes dotted decimal without leading zeros and the
    hextet forms with at most one [::]; a scope id or an embedded IPv4
    tail is not read by it, and an IPv4-mapped address is printed in
    hextets. *)

Module PyIP.

Inductive address :=
| IPv4Address (octets : list N)
| IPv6Address (hextets : list N).

Fixpoint split (sep : ascii) (s : string) : list string :=
  match s with
  | EmptyString => [EmptyString]
  | String c r =>
      if Ascii.eqb c sep then EmptyString :: split sep r
      else match split sep r with
           | h :: t => String c h :: t
           | [] => [String c EmptyString]
           end
  end.

Fixpoint join (sep : string) (l : list string) : string :=
  match l with
  | [] => ""
  | [x] => x
  | x :: rest => x +:+ sep +:+ join sep rest
  end.

Definition digit_value (c : ascii) : option N :=
  let n := N_of_ascii c in
  if (48 <=? n)%N && (n <=? 57)%N then Some (n - 48)%N else None.

Definition hex_value (c : ascii) : option N :=
  let n := N_of_ascii c in
  if (48 <=? n)%N && (n <=? 57)%N then Some (n - 48)%N
  else if (97 <=? n)%N && (n <=? 102)%N then Some (n - 87)%N
  else if (65 <=? n)%N && (n <=? 70)%N then Some (n - 55)%N
  else None.

Fixpoint number (base : N) (value : ascii -> option N) (cs : list ascii) (acc : N)
  : option N :=
  match cs with
  | [] => Some acc
  | c :: rest =>
      match value c with
      | Some d => number base value rest (acc * base + d)%N
      | None => None
      end
  end.

Definition parse_octet (s : string) : option N :=
  let cs := Str.chars s in
  match cs with
  | [] => None
  | c :: rest =>
      if (3 <? length cs)%nat then None
      else if Ascii.eqb c "0" && negb (Nat.eqb (length rest) 0) then None
      else match number 10 digit_value cs 0 with
           | Some n => if (n <=? 255)%N then Some n else None
           | None => None
           end
  end.

Definition parse_hextet (s : string) : option N :=
  let cs := Str.chars s in
  match cs with
  | [] => None
  | _ => if (4 <? length cs)%nat then None else number 16 hex_value cs 0
  end.

Fixpoint traverse {A B} (f : A -> option B) (l : list A) : option (list B) :=
  match l with
  | [] => Some []
  | x :: rest =>
      match f x, traverse f rest with
      | Some y, Some ys => Some (y :: ys)
      | _, _ => None
      end
  end.

Definition parse_v4 (s : string) : option address :=
  let parts := split "." s in
  if negb (Nat.eqb (length parts) 4) then None
  else option_map IPv4Address (traverse parse_octet parts).

Definition is_empty (s : string) : bool := String.eqb s "".

(** Positions of the empty parts strictly inside the list. *)
Definition inner_gaps (parts : list string) : list nat :=
  List.filter
    (fun i => (0 <? i)%nat && (i <? length parts - 1)%nat
              && is_empty (nth i parts "x"))
    (seq 0 (length parts)).

Definition parse_v6 (s : string) : option address :=
  let parts := split ":" s in
  let n := length parts in
  let first_empty := is_empty (nth 0 parts "x") in
  let last_empty := is_empty (nth (n - 1) parts "x") in
  if (n <? 3)%nat || (9 <? n)%nat then None
  else
    match inner_gaps parts with
    | [] =>
        if Nat.eqb n 8 && negb first_empty && negb last_empty
        then option_map IPv6Address (traverse parse_hextet parts)
        else None
    | [skip_index] =>
        let parts_hi := (if first_empty then skip_index - 1 else skip_index)%nat in
        let parts_lo :=
          (if last_empty then n - skip_index - 1 - 1 else n - skip_index - 1)%nat in
        if first_empty && negb (Nat.eqb parts_hi 0) then None
        else if last_empty && negb (Nat.eqb parts_lo 0) then None
        else if (8 <=? parts_hi + parts_lo)%nat then None
        else
          match traverse parse_hextet (firstn parts_hi parts),
                traverse parse_hextet (skipn (n - parts_lo) parts) with
          | Some hi, Some lo =>
              Some (IPv6Address
                      (hi ++ repeat 0%N (8 - (parts_hi + parts_lo)) ++ lo))
          | _, _ => None
          end
    | _ => None
    end.

Definition parse (s : string) : option address :=
  match parse_v4 s with
  | Some a => Some a
  | None => parse_v6 s
  end.

Definition decimal (n : N) : string :=
  DecimalString.NilEmpty.string_of_uint (N.to_uint n).

Definition hexadecimal (n : N) : string :=
  HexadecimalString.NilEmpty.string_of_uint (N.to_hex_uint n).

(** The scan of [_compress_hextets]: the start and the length of the best
    run of zero hextets. *)
Record scan := {
  index : nat;
  run_start : option nat;
  run_len : nat;
  best_start : nat;
  best_len : nat
}.

Definition scan_step (st : scan) (h : N) : scan :=
  if (h =? 0)%N then
    let len := S (run_len st) in
    let start := match run_start st with Some i => i | None => index st end in
    let better := (best_len st <? len)%nat in
    {| index := S (index st);
       run_start := Some start;
       run_len := len;
       best_start := if better then start else best_start st;
       best_len := if better then len else best_len st |}
  else
    {| index := S (index st);
       run_start := None;
       run_len := 0;
       best_start := best_start st;
       best_len := best_len st |}.

Definition compress_hextets (hs : list N) : list string :=
  let texts := map hexadecimal hs in
  let st :=
    fold_left scan_step hs
      {| index := 0; run_start := None; run_len := 0; best_start := 0; best_len := 0 |} in
  if (1 <? best_len st)%nat then
    let stop := (best_start st + best_len st)%nat in
    let tail := skipn stop texts in
    let tail := if Nat.eqb stop (length texts) then [""] else tail in
    let body := firstn (best_start st) texts ++ [""] ++ tail in
    if Nat.eqb (best_start st) 0 then "" :: body else body
  else texts.

Definition str (a : address) : string :=
  match a with
  | IPv4Address octets => join "." (map decimal octets)
  | IPv6Address hextets => join ":" (compress_hextets hextets)
  end.

End PyIP.

#[export] Instance PyIP_lib : IPLib := {|
  IPvAnyAddress := PyIP.address;
  ip_parse := PyIP.parse;
  ip_str := PyIP.str
|}.


(** ** Vocabulary of the statements *)

Definition admin_secret : string := "dynr53/users/admin".

(** The exception of a failed credential check. *)
Definition badauth : exn :=
  HTTPException 401 "badauth" [("WWW-Authenticate", "Basic")].

Definition ip_undeterminable : exn :=
  HTTPException 400 "IP can not be determined from x-forward-for header" [].

Definition zone_not_found (zone_name : string) : exn :=
  HTTPException 400 ("Hosted zone " +:+ zone_name +:+ " not found") [].

Section Vocabulary.

Context {IP : IPLib} {DNS : Provider}.

(** [w'] is [w] after the calls [calls]: same secret store, same DNS
    state, the calls added to the trace. *)
Definition extends_by (w w' : World) (calls : list Event) : Prop :=
  secrets_backend w' = secrets_backend w /\
  dns w' = dns w /\
  trace w' = trace w ++ calls.

(** The world after further calls, the DNS state untouched. *)
Definition after_calls (w : World) (calls : list Event) : World :=
  {| secrets_backend := secrets_backend w;
     admin_password_cache := admin_password_cache w;
     dns := dns w;
     trace := trace w ++ calls |}.

(** The world after the upsert of [update_r53_record]. *)
Definition after_upsert (w : World) (hostname zone_id : string) (ip : IPvAnyAddress)
  : World :=
  {| secrets_backend := secrets_backend w;
     admin_password_cache := admin_password_cache w;
     dns := change_resource_record_sets (dns w) zone_id (upsert_batch hostname ip);
     trace := trace w ++ [ChangeResourceRecordSets zone_id (upsert_batch hostname ip)] |}.

(** The calls of one zone resolution. *)
Definition zone_calls (hostname : string) : list Event :=
  [ListHostedZonesByName (zone_name_of hostname); ListHostedZones].

(** The zones of the provider, all pages in order. *)
Definition zones (w : World) : list HostedZone := concat (list_hosted_zones (dns w)).

(** The first zone of that name, as the search over the pages finds it. *)
Definition find_zone (name : string) (w : World) : option HostedZone :=
  find (fun z => String.eqb (zone_Name z) name) (zones w).

(** The record sets that the listing for [hostname] returns. *)
Definition listed_sets (w : World) (zone_id hostname : string) : list ResourceRecordSet :=
  list_resource_record_sets (dns w) zone_id hostname "A".

(** The listing holds a record set of that name, with a type accepted by
    [of_type], that carries the value. *)
Definition has_record (of_type : string -> bool) (sets : list ResourceRecordSet)
    (name value : string) : Prop :=
  exists rs r,
    In rs sets /\ rrs_Name rs = name /\ of_type (rrs_Type rs) = true /\
    In r (rrs_ResourceRecords rs) /\ Value r = value.

(** The call of one record listing. *)
Definition record_call (hostname zone_id : string) : Event :=
  ListResourceRecordSets zone_id hostname "A".

(** The body of [update] once the target IP is known. *)
Definition reconcile_outcome (hostname : string) (ip : IPvAnyAddress) (w : World)
  : result PlainTextResponse * World :=
  match find_zone (zone_name_of hostname +:+ ".") w with
  | None =>
      (Raise (zone_not_found (zone_name_of hostname)),
       after_calls w (zone_calls hostname))
  | Some z =>
      let w1 := after_calls w (zone_calls hostname ++ [record_call hostname (zone_Id z)]) in
      if truthy (search_records (hostname +:+ ".") (ip_str ip)
                   (listed_sets w (zone_Id z) hostname))
      then (Ok (PlainText ("nochg " +:+ ip_str ip)), w1)
      else (Ok (PlainText ("good " +:+ ip_str ip)),
            after_upsert w1 hostname (zone_Id z) ip)
  end.

(** The world a request leaves, in two cases: calls only, or calls and
    then one upsert. *)
Definition only_calls (w w2 : World) : Prop :=
  exists calls,
    mutating_calls calls = [] /\ dns w2 = dns w /\ trace w2 = trace w ++ calls /\
    admin_password_cache w2 = admin_password_cache w.

Definition calls_then_upsert (hostname : string) (w w2 : World) : Prop :=
  exists calls z ip,
    mutating_calls calls = [] /\
    find_zone (zone_name_of hostname +:+ ".") w = Some z /\
    dns w2 = change_resource_record_sets (dns w) (zone_Id z) (upsert_batch hostname ip) /\
    trace w2 =
      trace w ++ calls ++ [ChangeResourceRecordSets (zone_Id z) (upsert_batch hostname ip)] /\
    admin_password_cache w2 = admin_password_cache w.

End Vocabulary.

Definition type_A (t : string) : bool := String.eqb t "A".
Definition any_type (t : string) : bool := true.

(** ** Two sentences of the specification, as it words them

    Both are refuted below, each next to the statement that holds. *)

(** "For every authenticated update request whose zone resolves and which
    has no existing A record matching the target IP, the handler issues
    exactly one UPSERT ... and responds HTTP 200 with body good <ip>." *)
Definition claim_no_matching_A_record_upserts : Prop :=
  forall (IP : IPLib) (DNS : Provider)
         (c : HTTPBasicCredentials) (request : Request) (hostname : string)
         (myip : option IPvAnyAddress) (ip : IPvAnyAddress) (z : HostedZone)
         (w w1 : World),
    validate_credentials c w = (Ok tt, w1) ->
    fst (target_ip request myip w1) = Ok ip ->
    raw_literal hostname = Some hostname ->
    raw_literal (ip_str ip) = Some (ip_str ip) ->
    find_zone (zone_name_of hostname +:+ ".") w1 = Some z ->
    ~ has_record type_A (listed_sets w1 (zone_Id z) hostname)
        (hostname +:+ ".") (ip_str ip) ->
    exists w2,
      nic_update c request hostname myip w =
        (Ok {| body := "good " +:+ ip_str ip; status_code := 200 |}, w2) /\
      mutating_calls (trace w2) =
        mutating_calls (trace w) ++
        [ChangeResourceRecordSets (zone_Id z) (upsert_batch hostname ip)].

(** "It never removes other record types or other values belonging to
    that hostname": every value of every record set of the host name is
    still in a set of that name and type after the request. *)
Definition claim_update_removes_no_value : Prop :=
  forall (IP : IPLib) (c : HTTPBasicCredentials) (request : Request)
         (hostname : string) (myip : option IPvAnyAddress)
         (w : @World R53_provider),
    let w2 := snd (nic_update c request hostname myip w) in
    forall (zone_id : string) (rs : ResourceRecordSet) (r : ResourceRecord),
      In rs (R53.sets_of (dns w) zone_id) ->
      rrs_Name rs = R53.normalize_name hostname ->
      In r (rrs_ResourceRecords rs) ->
      exists rs',
        In rs' (R53.sets_of (dns w2) zone_id) /\
        rrs_Name rs' = rrs_Name rs /\ rrs_Type rs' = rrs_Type rs /\
        In r (rrs_ResourceRecords rs').

(** ** The fixture of the unit tests, and variations of it *)

Module Example.

Definition zone_id : string := "/hostedzone/Z1".
Definition hostname : string := "www.example.com".

Definition secrets : gmap string SecretString :=
  {[ admin_secret :=
       JsonObject (<["password" := "secret12345"]> {[ "username" := "admin" ]}) ]}.

Definition zones_only : R53.state :=
  R53.create_hosted_zone R53.empty "example.com" zone_id.

Definition with_sets (sets : list ResourceRecordSet) : R53.state :=
  {| R53.hosted_zones := R53.hosted_zones zones_only;
     R53.record_sets := {[ zone_id := sets ]} |}.

Definition world (backend : SecretsBackend) (d : R53.state) : @World R53_provider :=
  {| secrets_backend := backend;
     admin_password_cache := None;
     dns := d;
     trace := [] |}.

Definition start : @World R53_provider := world (Serving secrets) zones_only.

Definition admin : HTTPBasicCredentials :=
  {| username := "admin"; password := "secret12345" |}.

Definition no_headers : Request := {| headers := [] |}.


Definition ip : PyIP.address := PyIP.IPv4Address [1; 1; 1; 1]%N.
Definition ip6 : PyIP.address := PyIP.IPv6Address [8193; 3512; 0; 0; 0; 0; 0; 1]%N.

Definition zone : HostedZone := {| zone_Name := "example.com."; zone_Id := zone_id |}.

(** The host has an AAAA record set and no A record set. *)
Definition aaaa_only : R53.state :=
  with_sets [ {| rrs_Name := "www.example.com.";
                 rrs_Type := "AAAA";
                 rrs_TTL := 300;
                 rrs_ResourceRecords := [ {| Value := "2001:db8::1" |} ] |} ].

(** The host has an A record set of two values. *)
Definition two_values : list ResourceRecordSet :=
  [ {| rrs_Name := "www.example.com.";
       rrs_Type := "A";
       rrs_TTL := 60;
       rrs_ResourceRecords := [ {| Value := "1.1.1.1" |}; {| Value := "2.2.2.2" |} ] |} ].

End Example.

(** ** The documentation routes of [index.py]

    Registered when [settings.public_docs] is falsy: each one depends on
    [validate_credentials] and then returns a document that the
    framework builds.  The document is kept as the call that builds it. *)


Section Docs.

Context {DNS : Provider}.







End Docs.

Section Pipeline.

Context {IP : IPLib}.


End Pipeline.

(** ** The deployment stack of [dynr53/dynr53_stack.py]

    The parts of [Dynr53Stack] that compute: the policy statements of
    [zone_permissions] and the secret of [secrets].  The context value
    [dynr53/allowed_zones] is the list of its items in order, each zone
    configuration a JSON object of lists of names; the ARN that the zone
    lookup gives for a zone name is a parameter. *)

Module Dynr53Stack.

Definition default_user : string := "admin".

Record PolicyStatement := {
  actions : list string;
  resources : list string;
  conditions : list (string * list (string * list string))
}.

(** [[f'{x}.{zone_name}' for x in zone_config['allowed_records']]] *)
Definition fq_records (zone_name : string) (allowed_records : list string) : list string :=
  map (fun x => x +:+ "." +:+ zone_name) allowed_records.

(** The two statements that one turn of the loop adds to the role. *)
Definition zone_statements (hosted_zone_arn : string) (fq : list string)
  : list PolicyStatement :=
  [ {| actions := ["route53:ChangeResourceRecordSets";
                   "route53:ListResourceRecordSets"];
       resources := [hosted_zone_arn];
       conditions :=
         [("ForAllValues:StringLike",
           [("route53:ChangeResourceRecordSetsNormalizedRecordNames", fq)])] |};
    {| actions := ["route53:ListHostedZonesByName"; "route53:ListHostedZones"];
       resources := ["*"];
       conditions := [] |} ].

(** [zone_permissions]: the statements added to the role of the function,
    in order; [zone_config['allowed_records']] raises when the key is
    missing. *)
Fixpoint zone_permissions (hosted_zone_arn : string -> string)
    (allowed_zones_config : list (string * gmap string (list string)))
  : result (list PolicyStatement) :=
  match allowed_zones_config with
  | [] => Ok []
  | (zone_name, zone_config) :: rest =>
      match zone_config !! "allowed_records" with
      | None => Raise (KeyError "allowed_records")
      | Some allowed_records =>
          match zone_permissions hosted_zone_arn rest with
          | Ok l =>
              Ok (zone_statements (hosted_zone_arn zone_name)
                    (fq_records zone_name allowed_records) ++ l)
          | Raise e => Raise e
          end
      end
  end.

Record SecretStringGenerator := {
  secret_string_template : gmap string string;
  generate_string_key : string;
  exclude_punctuation : bool;
  exclude_characters : string
}.

Record Secret := {
  secret_name : string;
  generate_secret_string : SecretStringGenerator
}.

(** The secret that [secrets] declares. *)
Definition admin_user_secret : Secret :=
  {| secret_name := "dynr53/users/" +:+ default_user;
     generate_secret_string :=
       {| secret_string_template := {[ "username" := default_user ]};
          generate_string_key := "password";
          exclude_punctuation := true;
          exclude_characters := "@" |} |}.

End Dynr53Stack.

(** ** A configuration of the stack, and a request through a proxy chain *)

Module Deployment.

(** [{"example.com": {"allowed_records": ["www", "a.b"]}}] *)
Definition allowed_zones : list (string * gmap string (list string)) :=
  [("example.com", {[ "allowed_records" := ["www"; "a.b"] ]})].

Definition arn (zone_name : string) : string :=
  "arn:aws:route53:::hostedzone/" +:+ zone_name.

(** The forwarding header as a chain of proxies leaves it. *)
Definition forwarded_list : Request :=
  {| headers := [("x-forwarded-for", "1.1.1.1, 10.0.0.1")] |}.

(** A process that has cached the password, after which the secret was
    changed in the store. *)
Definition rotated : @World R53_provider :=
  {| secrets_backend :=
       Serving {[ admin_secret := JsonObject {[ "password" := "changed67890" ]} ]};
     admin_password_cache := Some "secret12345";
     dns := Example.zones_only;
     trace := [] |}.

End Deployment.

(** * Properties *)

(** ** Strings *)

Lemma append_cons (c : ascii) (a b : string) : String c a +:+ b = String c (a +:+ b).
Proof. reflexivity. Qed.

Lemma append_nil_l (a : string) : "" +:+ a = a.
Proof. reflexivity. Qed.

Lemma chars_app (a b : string) : Str.chars (a +:+ b) = Str.chars a ++ Str.chars b.
Proof.
  unfold Str.chars. induction a as [|c a IH]; [reflexivity|].
  rewrite append_cons. simpl. now rewrite IH.
Qed.

Lemma append_assoc (a b c : string) : (a +:+ b) +:+ c = a +:+ (b +:+ c).
Proof.
  induction a as [|x a IH]; [reflexivity|].
  rewrite !append_cons. now rewrite IH.
Qed.

(** A text without the separator is not split. *)
Lemma split_1_none (sep : ascii) (s : string) :
  Str.has_char sep s = false -> Str.split_1 sep s = [s].
Proof.
  induction s as [|c s IH]; simpl; [reflexivity|].
  unfold Str.has_char; simpl. fold (Str.chars s). fold (Str.has_char sep s).
  rewrite (Ascii.eqb_sym sep c).
  destruct (Ascii.eqb c sep); simpl; [discriminate|].
  intros H. now rewrite (IH H).
Qed.

(** The split is at the first separator. *)
Lemma split_1_first (sep : ascii) (a b : string) :
  Str.has_char sep a = false ->
  Str.split_1 sep (a +:+ String sep b) = [a; b].
Proof.
  induction a as [|c a IH]; rewrite ?append_cons, ?append_nil_l; simpl.
  - intros _. now rewrite Ascii.eqb_refl.
  - unfold Str.has_char; simpl. fold (Str.chars a). fold (Str.has_char sep a).
    rewrite (Ascii.eqb_sym sep c).
    destruct (Ascii.eqb c sep); simpl; [discriminate|].
    intros H. now rewrite (IH H).
Qed.

(** A text with the separator has a first one. *)
Lemma has_char_first (sep : ascii) (s : string) :
  Str.has_char sep s = true ->
  exists a b, s = a +:+ String sep b /\ Str.has_char sep a = false.
Proof.
  induction s as [|c s IH].
  - discriminate.
  - unfold Str.has_char; simpl. fold (Str.chars s). fold (Str.has_char sep s).
    destruct (Ascii.eqb sep c) eqn:E; simpl.
    + intros _. apply Ascii.eqb_eq in E. subst c. now exists "", s.
    + intros H. destruct (IH H) as (a & b & -> & Ha).
      exists (String c a), b. split; [reflexivity|].
      unfold Str.has_char; simpl. fold (Str.chars a). fold (Str.has_char sep a).
      now rewrite E, Ha.
Qed.

Lemma endswith_app (a b : string) : Str.endswith (a +:+ b) b = true.
Proof.
  unfold Str.endswith. rewrite chars_app, rev_app_distr.
  induction (rev (Str.chars b)) as [|x l IH]; simpl; [reflexivity|].
  now rewrite Ascii.eqb_refl.
Qed.

Lemma raw_literal_app (a b : string) :
  raw_literal (a +:+ b) = Some (a +:+ b) <->
  raw_literal a = Some a /\ raw_literal b = Some b.
Proof.
  unfold raw_literal. rewrite chars_app, forallb_app.
  destruct (forallb raw_literal_char (Str.chars a));
    destruct (forallb raw_literal_char (Str.chars b)); simpl;
    split; try tauto; try (intros [? ?]; discriminate); discriminate.
Qed.

(** ** The reference address library, on literals *)

Example PyIP_parse_v4 : PyIP.parse "1.1.1.1" = Some (PyIP.IPv4Address [1; 1; 1; 1]%N).
Proof. reflexivity. Qed.

Example PyIP_parse_leading_zero : PyIP.parse "192.168.001.1" = None.
Proof. reflexivity. Qed.

Example PyIP_parse_v6 :
  PyIP.parse "2001:DB8::1" = Some (PyIP.IPv6Address [8193; 3512; 0; 0; 0; 0; 0; 1]%N).
Proof. reflexivity. Qed.

Example PyIP_str_v6 :
  PyIP.str (PyIP.IPv6Address [8193; 3512; 0; 0; 0; 0; 0; 1]%N) = "2001:db8::1".
Proof. reflexivity. Qed.

Example PyIP_str_v6_zero_tail :
  PyIP.str (PyIP.IPv6Address [65152; 0; 0; 0; 0; 0; 0; 0]%N) = "fe80::".
Proof. reflexivity. Qed.

Example PyIP_str_v6_loopback :
  PyIP.str (PyIP.IPv6Address [0; 0; 0; 0; 0; 0; 0; 1]%N) = "::1".
Proof. reflexivity. Qed.

Example PyIP_str_v4 : PyIP.str (PyIP.IPv4Address [192; 168; 0; 1]%N) = "192.168.0.1".
Proof. reflexivity. Qed.

(** ** The handler *)

Section Properties.

Context {IP : IPLib} {DNS : Provider}.

(** *** The credential fetch *)

Lemma fetch_admin_password_world (w : World) :
  let '(_, w1) := fetch_admin_password w in
  extends_by w w1 [GetSecret admin_secret] /\
  admin_password_cache w1 = admin_password_cache w.
Proof.
  unfold fetch_admin_password, get_secret, bind, call, json_loads, ret, raise,
    extends_by; simpl.
  destruct (secrets_backend w) as [|secrets]; simpl; [auto|].
  destruct (secrets !! "dynr53/users/admin") as [[|fields]|]; simpl; auto.
  destruct (fields !! "password"); simpl; auto.
Qed.

Lemma fetch_admin_password_result (w : World) :
  fst (fetch_admin_password w) =
  match secrets_backend w with
  | Unreachable => Raise (GetParameterError admin_secret)
  | Serving secrets =>
      match secrets !! admin_secret with
      | None => Raise (GetParameterError admin_secret)
      | Some NotJson => Raise JSONDecodeError
      | Some (JsonObject fields) =>
          match fields !! "password" with
          | Some p => Ok p
          | None => Raise (KeyError "password")
          end
      end
  end.
Proof.
  unfold fetch_admin_password, get_secret, bind, call, json_loads, ret, raise,
    admin_secret; simpl.
  destruct (secrets_backend w) as [|secrets]; simpl; [auto|].
  destruct (secrets !! "dynr53/users/admin") as [[|fields]|]; simpl; auto.
  destruct (fields !! "password"); simpl; auto.
Qed.

Lemma get_admin_password_cached (w : World) (p : string) :
  admin_password_cache w = Some p -> get_admin_password w = (Ok p, w).
Proof. intros H. unfold get_admin_password, lru_cache. now rewrite H. Qed.

Lemma get_admin_password_miss (w : World) :
  admin_password_cache w = None ->
  let '(r, w1) := get_admin_password w in
  r = fst (fetch_admin_password w) /\
  extends_by w w1 [GetSecret admin_secret] /\
  admin_password_cache w1 = match r with Ok p => Some p | Raise _ => None end.
Proof.
  intros H. unfold get_admin_password, lru_cache. rewrite H.
  pose proof (fetch_admin_password_world w) as Hw.
  destruct (fetch_admin_password w) as [[p|e] w1]; simpl in *.
  - destruct Hw as [(Hs & Hd & Ht) _]. unfold extends_by; simpl. auto.
  - destruct Hw as [Hx Hc]. rewrite Hc. auto.
Qed.

(** Whatever the cache holds, a call adds no DNS call, leaves the DNS
    state alone, and a returned password is in the cache afterwards. *)
Lemma get_admin_password_world (w : World) :
  let '(r, w1) := get_admin_password w in
  exists calls, extends_by w w1 calls /\ dns_calls calls = [] /\
    forall p, r = Ok p -> admin_password_cache w1 = Some p.
Proof.
  destruct (admin_password_cache w) as [p|] eqn:Hc.
  - rewrite (get_admin_password_cached w p Hc). exists [].
    unfold extends_by. rewrite app_nil_r. repeat split; auto. congruence.
  - pose proof (get_admin_password_miss w Hc) as H.
    destruct (get_admin_password w) as [r w1]. destruct H as (Hr & Hx & Hc1).
    exists [GetSecret admin_secret]. repeat split; try apply Hx.
    intros p ->. exact Hc1.
Qed.


(** *** Authentication *)

Lemma validate_credentials_run (c : HTTPBasicCredentials) (w w1 : World) (p : string) :
  get_admin_password w = (Ok p, w1) ->
  validate_credentials c w =
    (if String.eqb "admin" (username c) && String.eqb p (password c)
     then Ok tt else Raise badauth, w1).
Proof.
  intros H. unfold validate_credentials, bind, compare_digest. rewrite H.
  destruct (String.eqb "admin" (username c) && String.eqb p (password c));
    reflexivity.
Qed.

Lemma validate_credentials_raise (c : HTTPBasicCredentials) (w w1 : World) (e : exn) :
  get_admin_password w = (Raise e, w1) ->
  validate_credentials c w = (Raise e, w1).
Proof. intros H. unfold validate_credentials, bind. now rewrite H. Qed.

Lemma credentials_check (c : HTTPBasicCredentials) (p : string) :
  String.eqb "admin" (username c) && String.eqb p (password c) = true <->
  username c = "admin" /\ password c = p.
Proof.
  rewrite andb_true_iff, !String.eqb_eq. intuition congruence.
Qed.

(** A request that passes the credential check has made no DNS call. *)
Lemma validate_credentials_world (c : HTTPBasicCredentials) (w : World) :
  let '(_, w1) := validate_credentials c w in
  exists calls, extends_by w w1 calls /\ dns_calls calls = [].
Proof.
  pose proof (get_admin_password_world w) as H.
  destruct (get_admin_password w) as [[p|e] w1] eqn:Hg.
  - rewrite (validate_credentials_run c w w1 p Hg).
    destruct H as (calls & Hx & Hd & _). eauto.
  - rewrite (validate_credentials_raise c w w1 e Hg).
    destruct H as (calls & Hx & Hd & _). eauto.
Qed.

Lemma get_admin_password_result (w : World) :
  fst (get_admin_password w) =
  match admin_password_cache w with
  | Some p => Ok p
  | None => fst (fetch_admin_password w)
  end.
Proof.
  unfold get_admin_password, lru_cache.
  destruct (admin_password_cache w); [reflexivity|].
  now destruct (fetch_admin_password w) as [[p|e] w1].
Qed.

Lemma validate_credentials_result (c : HTTPBasicCredentials) (w : World) :
  fst (validate_credentials c w) =
  match fst (get_admin_password w) with
  | Ok p =>
      if String.eqb "admin" (username c) && String.eqb p (password c)
      then Ok tt else Raise badauth
  | Raise e => Raise e
  end.
Proof.
  destruct (get_admin_password w) as [[p|e] w1] eqn:Hg; simpl.
  - now rewrite (validate_credentials_run c w w1 p Hg).
  - now rewrite (validate_credentials_raise c w w1 e Hg).
Qed.

(** C10. The user name is compared with the literal [admin] and the
    password with the [password] member of the secret (the one the cache
    holds, once fetched): the check passes exactly when both are equal.
    No other member of the secret takes part: a secret with the same
    [password] member and any other content, a different [username]
    included, gives the same answer. *)
Theorem authentication_is_admin_literal_and_secret_password
    (c : HTTPBasicCredentials) (w : World)
    (secrets : gmap string SecretString) (fields : gmap string string) (p : string) :
  secrets_backend w = Serving secrets ->
  secrets !! admin_secret = Some (JsonObject fields) ->
  fields !! "password" = Some p ->
  admin_password_cache w = None \/ admin_password_cache w = Some p ->
  (fst (validate_credentials c w) = Ok tt <->
   username c = "admin" /\ password c = p) /\
  (fst (validate_credentials c w) <> Ok tt ->
   fst (validate_credentials c w) = Raise badauth) /\
  (forall fields' : gmap string string,
     fields' !! "password" = fields !! "password" ->
     fst (validate_credentials c
            {| secrets_backend := Serving (<[admin_secret := JsonObject fields']> secrets);
               admin_password_cache := admin_password_cache w;
               dns := dns w;
               trace := trace w |})
     = fst (validate_credentials c w)).
Proof.
  intros Hb Hs Hp Hc.
  assert (Hg : fst (get_admin_password w) = Ok p).
  { rewrite get_admin_password_result.
    destruct Hc as [-> | ->]; [|reflexivity].
    rewrite fetch_admin_password_result, Hb, Hs, Hp. reflexivity. }
  rewrite validate_credentials_result, Hg.
  assert (H3 : forall fields' : gmap string string,
             fields' !! "password" = fields !! "password" ->
             fst (validate_credentials c
                    {| secrets_backend :=
                         Serving (<[admin_secret := JsonObject fields']> secrets);
                       admin_password_cache := admin_password_cache w;
                       dns := dns w;
                       trace := trace w |})
             = if String.eqb "admin" (username c) && String.eqb p (password c)
               then Ok tt else Raise badauth).
  { intros fields' Hf.
    rewrite validate_credentials_result, get_admin_password_result; simpl.
    destruct Hc as [-> | ->]; [|reflexivity].
    rewrite fetch_admin_password_result; simpl.
    now rewrite lookup_insert_eq, Hf, Hp. }
  pose proof (credentials_check c p) as Hk.
  destruct (String.eqb "admin" (username c) && String.eqb p (password c)).
  - split; [|split]; [|congruence|exact H3].
    split; [intros _; now apply Hk | reflexivity].
  - split; [|split]; [|reflexivity|exact H3].
    split; [discriminate|]. intros H. apply Hk in H. discriminate.
Qed.


(** *** The target IP *)


Lemma headers_getitem_absent (l : list (string * string)) (key : string) :
  (forall kv, In kv l -> fst kv <> key) -> headers_getitem l key = None.
Proof.
  induction l as [|[k x] l IH]; simpl; intros H; [reflexivity|].
  destruct (String.eqb k key) eqn:E.
  - apply String.eqb_eq in E. exfalso. apply (H (k, x)); auto.
  - apply IH. intros kv Hin. apply H. now right.
Qed.


(** C7. An authenticated request with neither [myip] nor an
    [x-forwarded-for] header ends with an exception of status 400, and no
    call has gone to the DNS provider: the trace holds no zone or record
    call beyond what it held, and the DNS state is as it was. *)
Theorem no_ip_source_is_400_before_any_dns_call
    (c : HTTPBasicCredentials) (request : Request) (hostname : string)
    (w w1 : World) :
  validate_credentials c w = (Ok tt, w1) ->
  (forall kv, In kv (headers request) -> fst kv <> "x-forwarded-for") ->
  nic_update c request hostname None w =
    (Raise (HTTPException 400 "IP can not be determined from x-forward-for header" []),
     w1) /\
  http_status (fst (nic_update c request hostname None w)) = 400 /\
  dns w1 = dns w /\
  exists calls, trace w1 = trace w ++ calls /\ dns_calls calls = [].
Proof.
  intros Hv Hh.
  assert (Hn : nic_update c request hostname None w = (Raise ip_undeterminable, w1)).
  { unfold nic_update, bind at 1. rewrite Hv.
    unfold update, bind at 1, target_ip, get_ip_from_headers.
    now rewrite (headers_getitem_absent _ _ Hh). }
  rewrite Hn. split; [reflexivity|]. split; [reflexivity|].
  pose proof (validate_credentials_world c w) as H. rewrite Hv in H.
  destruct H as (calls & (_ & Hd & Ht) & Hc). eauto.
Qed.

(** *** Zone resolution *)

Lemma after_calls_nil (w : World) : after_calls w [] = w.
Proof. destruct w; unfold after_calls; simpl. now rewrite app_nil_r. Qed.

Lemma after_calls_app (w : World) (a b : list Event) :
  after_calls (after_calls w a) b = after_calls w (a ++ b).
Proof. unfold after_calls; simpl. now rewrite app_assoc. Qed.

Lemma dns_after_calls (w : World) (calls : list Event) :
  dns (after_calls w calls) = dns w.
Proof. reflexivity. Qed.

Lemma call_run (e : Event) (w : World) : call e w = (Ok tt, after_calls w [e]).
Proof. reflexivity. Qed.

Lemma literal_run (text : string) (w : World) :
  raw_literal text = Some text -> literal text w = (Ok text, w).
Proof. intros H. unfold literal. now rewrite H. Qed.

Lemma literal_fail (text : string) (w : World) :
  raw_literal text = None -> literal text w = (Raise (NotALiteral text), w).
Proof. intros H. unfold literal. now rewrite H. Qed.

Lemma raw_literal_cases (text : string) :
  raw_literal text = Some text \/ raw_literal text = None.
Proof. unfold raw_literal. destruct (forallb _ _); auto. Qed.

Lemma zone_name_of_cases (hostname : string) :
  (Str.has_char "." hostname = false /\ zone_name_of hostname = hostname) \/
  (exists a b, hostname = a +:+ String "." b /\ Str.has_char "." a = false /\
               zone_name_of hostname = b).
Proof.
  unfold zone_name_of. destruct (Str.has_char "." hostname) eqn:E.
  - right. destruct (has_char_first _ _ E) as (a & b & -> & Ha).
    exists a, b. rewrite (split_1_first _ _ _ Ha). auto.
  - left. now rewrite (split_1_none _ _ E).
Qed.

Lemma zone_name_of_strip (label rest : string) :
  Str.has_char "." label = false ->
  zone_name_of (label +:+ "." +:+ rest) = rest.
Proof.
  intros H. unfold zone_name_of.
  change ("." +:+ rest) with (String "." rest).
  now rewrite (split_1_first _ _ _ H).
Qed.

Example zone_name_of_www : zone_name_of "www.example.com" = "example.com".
Proof. reflexivity. Qed.

(** A host name of one label has nothing to take off: it is its own
    candidate. *)
Example zone_name_of_single_label : zone_name_of "localhost" = "localhost".
Proof. reflexivity. Qed.

Lemma raw_literal_dot : raw_literal "." = Some ".".
Proof. reflexivity. Qed.

Lemma raw_literal_zone_name (hostname : string) :
  raw_literal hostname = Some hostname ->
  raw_literal (zone_name_of hostname +:+ ".") = Some (zone_name_of hostname +:+ ".").
Proof.
  intros H. apply raw_literal_app. split; [|exact raw_literal_dot].
  destruct (zone_name_of_cases hostname) as [[_ ->] | (a & b & Hh & _ & ->)];
    [exact H|].
  rewrite Hh in H. apply raw_literal_app in H. destruct H as [_ H].
  change (String "." b) with ("." +:+ b) in H.
  apply raw_literal_app in H. tauto.
Qed.

Lemma search_zones_flat (lit : string) (pages : list (list HostedZone)) :
  search_zones lit pages =
  map (fun z => [zone_Id z])
      (List.filter (fun z => String.eqb (zone_Name z) lit) (concat pages)).
Proof.
  unfold search_zones. induction pages as [|pg pages IH]; simpl; [reflexivity|].
  rewrite IH. unfold search_zone_page. now rewrite List.filter_app, List.map_app.
Qed.

Lemma filter_head_find {A} (f : A -> bool) (l : list A) :
  find f l = match List.filter f l with x :: _ => Some x | [] => None end.
Proof.
  induction l as [|x l IH]; simpl; [reflexivity|]. now destruct (f x).
Qed.

Lemma find_none_all {A} (f : A -> bool) (l : list A) :
  (forall x, In x l -> f x = false) -> find f l = None.
Proof.
  induction l as [|x l IH]; simpl; intros H; [reflexivity|].
  rewrite (H x) by auto. apply IH. auto.
Qed.

Lemma get_hosted_zone_id_run (hostname : string) (w : World) :
  raw_literal (zone_name_of hostname +:+ ".") = Some (zone_name_of hostname +:+ ".") ->
  get_hosted_zone_id_from_fqdn hostname w =
    (match find_zone (zone_name_of hostname +:+ ".") w with
     | Some z => Ok (zone_Id z)
     | None => Raise (zone_not_found (zone_name_of hostname))
     end,
     after_calls w (zone_calls hostname)).
Proof.
  intros Hl. unfold get_hosted_zone_id_from_fqdn, bind.
  rewrite call_run, (literal_run _ _ Hl), call_run. unfold read_dns.
  rewrite after_calls_app, dns_after_calls. simpl app.
  unfold find_zone, zones.
  rewrite filter_head_find, search_zones_flat.
  destruct (List.filter _ (concat (list_hosted_zones (dns w)))) as [|z l];
    reflexivity.
Qed.

Lemma get_hosted_zone_id_not_literal (hostname : string) (w : World) :
  raw_literal (zone_name_of hostname +:+ ".") = None ->
  get_hosted_zone_id_from_fqdn hostname w =
    (Raise (NotALiteral (zone_name_of hostname +:+ ".")),
     after_calls w [ListHostedZonesByName (zone_name_of hostname)]).
Proof.
  intros Hl. unfold get_hosted_zone_id_from_fqdn, bind.
  now rewrite call_run, (literal_fail _ _ Hl).
Qed.

(** C4. For a host name [label.rest], the candidate zone name is [rest]:
    one label is taken off, no more.  The zone chosen is the first one the
    provider lists whose name is exactly [rest.], and its id is returned;
    when the provider lists no zone of that name the call raises the
    exception of status 400 that names the zone, whatever zones of
    shorter names (such as [example.com.] for [a.b.example.com]) are
    registered. *)
Theorem zone_resolution_strips_one_label_exact_match
    (label rest : string) (w : World) :
  Str.has_char "." label = false ->
  raw_literal rest = Some rest ->
  zone_name_of (label +:+ "." +:+ rest) = rest /\
  get_hosted_zone_id_from_fqdn (label +:+ "." +:+ rest) w =
    (match find_zone (rest +:+ ".") w with
     | Some z => Ok (zone_Id z)
     | None => Raise (HTTPException 400 ("Hosted zone " +:+ rest +:+ " not found") [])
     end,
     after_calls w [ListHostedZonesByName rest; ListHostedZones]) /\
  (forall zone_id,
     fst (get_hosted_zone_id_from_fqdn (label +:+ "." +:+ rest) w) = Ok zone_id ->
     exists z, In z (zones w) /\ zone_Name z = rest +:+ "." /\ zone_Id z = zone_id) /\
  ((forall z, In z (zones w) -> zone_Name z <> rest +:+ ".") ->
   fst (get_hosted_zone_id_from_fqdn (label +:+ "." +:+ rest) w) =
     Raise (HTTPException 400 ("Hosted zone " +:+ rest +:+ " not found") [])).
Proof.
  intros Hlabel Hrest.
  pose proof (zone_name_of_strip label rest Hlabel) as Hz.
  assert (Hl : raw_literal (rest +:+ ".") = Some (rest +:+ ".")).
  { apply raw_literal_app. split; [exact Hrest | exact raw_literal_dot]. }
  assert (Hrun := get_hosted_zone_id_run (label +:+ "." +:+ rest) w).
  unfold zone_calls, zone_not_found in Hrun. rewrite Hz in Hrun.
  specialize (Hrun Hl).
  split; [exact Hz|]. split; [exact Hrun|]. rewrite Hrun; simpl. split.
  - intros zone_id H. unfold find_zone in H.
    destruct (find _ (zones w)) as [z|] eqn:Hf; [|discriminate].
    apply find_some in Hf. destruct Hf as [Hin Hn].
    apply String.eqb_eq in Hn. exists z. repeat split; auto. congruence.
  - intros Hnone. unfold find_zone. rewrite find_none_all; [reflexivity|].
    intros z Hin. apply String.eqb_neq. now apply Hnone.
Qed.

Lemma normalized_name_not_double_dot (m : string) :
  normalized_name (m +:+ "..") = false.
Proof.
  unfold normalized_name. rewrite (endswith_app m "..").
  simpl. now rewrite andb_false_r.
Qed.

(** *** Reconciliation *)

Lemma concat_map_singleton {A B} (f : A -> B) (l : list A) :
  concat (map (fun x => [f x]) l) = map f l.
Proof. induction l as [|x l IH]; simpl; [reflexivity|]. now rewrite IH. Qed.

(** The search returns the records of value [ip_lit] of the sets named
    [name_lit], whatever the type of the set. *)
Lemma search_records_In (name_lit ip_lit : string) (sets : list ResourceRecordSet)
    (r : ResourceRecord) :
  In r (search_records name_lit ip_lit sets) <->
  exists rs, In rs sets /\ rrs_Name rs = name_lit /\
             In r (rrs_ResourceRecords rs) /\ Value r = ip_lit.
Proof.
  unfold search_records. rewrite concat_map_singleton, List.in_concat. split.
  - intros (l & Hl & Hr). apply List.in_map_iff in Hl. destruct Hl as (rrs & <- & Hl).
    apply List.in_map_iff in Hl. destruct Hl as (rs & <- & Hrs).
    apply List.filter_In in Hrs. destruct Hrs as [Hin Hn].
    apply List.filter_In in Hr. destruct Hr as [Hr Hv].
    apply String.eqb_eq in Hn, Hv. eauto.
  - intros (rs & Hin & Hn & Hr & Hv).
    exists (List.filter (fun r => String.eqb (Value r) ip_lit) (rrs_ResourceRecords rs)).
    split.
    + apply List.in_map. apply List.in_map_iff. exists rs. split; [reflexivity|].
      apply List.filter_In. split; [exact Hin|]. now apply String.eqb_eq.
    + apply List.filter_In. split; [exact Hr|]. now apply String.eqb_eq.
Qed.

Lemma truthy_true {A} (l : list A) : truthy l = true <-> exists x, In x l.
Proof.
  destruct l as [|x l]; simpl; split; try discriminate.
  - intros [x []].
  - eauto.
  - reflexivity.
Qed.

Lemma search_records_truthy (name_lit ip_lit : string) (sets : list ResourceRecordSet) :
  truthy (search_records name_lit ip_lit sets) = true <->
  has_record any_type sets name_lit ip_lit.
Proof.
  rewrite truthy_true. unfold has_record, any_type. split.
  - intros (r & Hr). apply search_records_In in Hr.
    destruct Hr as (rs & ? & ? & ? & ?). exists rs, r. auto.
  - intros (rs & r & ? & ? & _ & ? & ?). exists r. apply search_records_In. eauto.
Qed.

Lemma has_record_any (of_type : string -> bool) (sets : list ResourceRecordSet)
    (name value : string) :
  has_record of_type sets name value -> has_record any_type sets name value.
Proof.
  intros (rs & r & ? & ? & _ & ? & ?). exists rs, r. unfold any_type. auto.
Qed.

Lemma is_existing_record_exists_run (hostname zone_id : string) (ip : IPvAnyAddress)
    (w : World) :
  raw_literal (hostname +:+ ".") = Some (hostname +:+ ".") ->
  raw_literal (ip_str ip) = Some (ip_str ip) ->
  is_existing_record_exists hostname zone_id ip w =
    (Ok (truthy (search_records (hostname +:+ ".") (ip_str ip)
                   (listed_sets w zone_id hostname))),
     after_calls w [record_call hostname zone_id]).
Proof.
  intros Hn Hi. unfold is_existing_record_exists, bind.
  rewrite call_run. unfold read_dns.
  rewrite (literal_run _ _ Hn), (literal_run _ _ Hi), dns_after_calls.
  unfold listed_sets.
  now destruct (truthy _).
Qed.

Lemma is_existing_record_exists_not_literal (hostname zone_id : string)
    (ip : IPvAnyAddress) (w : World) :
  raw_literal (hostname +:+ ".") = None \/ raw_literal (ip_str ip) = None ->
  exists e, is_existing_record_exists hostname zone_id ip w =
              (Raise e, after_calls w [record_call hostname zone_id]).
Proof.
  intros H. unfold is_existing_record_exists, bind.
  rewrite call_run. unfold read_dns.
  destruct (raw_literal_cases (hostname +:+ ".")) as [Hn|Hn].
  - destruct H as [H|H]; [congruence|].
    rewrite (literal_run _ _ Hn), (literal_fail _ _ H). eauto.
  - rewrite (literal_fail _ _ Hn). eauto.
Qed.

Lemma update_r53_record_run (hostname zone_id : string) (ip : IPvAnyAddress) (w : World) :
  update_r53_record hostname zone_id ip w = (Ok tt, after_upsert w hostname zone_id ip).
Proof. reflexivity. Qed.

Lemma target_ip_world (request : Request) (myip : option IPvAnyAddress) (w : World) :
  snd (target_ip request myip w) = w.
Proof.
  unfold target_ip, get_ip_from_headers. destruct myip; [reflexivity|].
  destruct (headers_getitem _ _); [|reflexivity]. now destruct (ip_parse _).
Qed.

Lemma target_ip_any_world (request : Request) (myip : option IPvAnyAddress) (w w' : World) :
  fst (target_ip request myip w') = fst (target_ip request myip w).
Proof.
  unfold target_ip, get_ip_from_headers. destruct myip; [reflexivity|].
  destruct (headers_getitem _ _); [|reflexivity]. now destruct (ip_parse _).
Qed.

Lemma target_ip_ok (request : Request) (myip : option IPvAnyAddress) (w : World)
    (ip : IPvAnyAddress) :
  fst (target_ip request myip w) = Ok ip -> target_ip request myip w = (Ok ip, w).
Proof.
  intros H. pose proof (target_ip_world request myip w) as Hw.
  destruct (target_ip request myip w) as [r w']; simpl in *. congruence.
Qed.

Lemma update_run (request : Request) (hostname : string) (myip : option IPvAnyAddress)
    (ip : IPvAnyAddress) (w : World) :
  fst (target_ip request myip w) = Ok ip ->
  raw_literal hostname = Some hostname ->
  raw_literal (ip_str ip) = Some (ip_str ip) ->
  update request hostname myip w = reconcile_outcome hostname ip w.
Proof.
  intros Ht Hh Hi. unfold update, bind at 1. rewrite (target_ip_ok _ _ _ _ Ht).
  unfold bind at 1. rewrite (get_hosted_zone_id_run _ _ (raw_literal_zone_name _ Hh)).
  unfold reconcile_outcome.
  destruct (find_zone _ w) as [z|]; [|reflexivity].
  assert (Hn : raw_literal (hostname +:+ ".") = Some (hostname +:+ ".")).
  { apply raw_literal_app. split; [exact Hh | exact raw_literal_dot]. }
  unfold bind at 1. rewrite (is_existing_record_exists_run _ _ _ _ Hn Hi).
  rewrite after_calls_app. unfold listed_sets. rewrite dns_after_calls.
  destruct (truthy _); [reflexivity|].
  unfold bind. now rewrite update_r53_record_run.
Qed.

Lemma nic_update_run (c : HTTPBasicCredentials) (request : Request) (hostname : string)
    (myip : option IPvAnyAddress) (ip : IPvAnyAddress) (w w1 : World) :
  validate_credentials c w = (Ok tt, w1) ->
  fst (target_ip request myip w1) = Ok ip ->
  raw_literal hostname = Some hostname ->
  raw_literal (ip_str ip) = Some (ip_str ip) ->
  nic_update c request hostname myip w = reconcile_outcome hostname ip w1.
Proof.
  intros Hv Ht Hh Hi. unfold nic_update, bind. rewrite Hv.
  now apply update_run.
Qed.

Lemma dns_calls_mutating (calls : list Event) :
  dns_calls calls = [] -> mutating_calls calls = [].
Proof.
  unfold dns_calls, mutating_calls.
  induction calls as [|e l IH]; simpl; [reflexivity|].
  destruct e; simpl; try discriminate; auto.
Qed.

Lemma mutating_calls_app (a b : list Event) :
  mutating_calls (a ++ b) = mutating_calls a ++ mutating_calls b.
Proof. apply List.filter_app. Qed.

Lemma validate_credentials_mutating (c : HTTPBasicCredentials) (w w1 : World)
    (r : result unit) :
  validate_credentials c w = (r, w1) ->
  dns w1 = dns w /\ mutating_calls (trace w1) = mutating_calls (trace w) /\
  dns_calls (trace w1) = dns_calls (trace w).
Proof.
  intros Hv. pose proof (validate_credentials_world c w) as H. rewrite Hv in H.
  destruct H as (calls & (_ & Hd & Ht) & Hc). split; [exact Hd|].
  rewrite Ht, mutating_calls_app, (dns_calls_mutating _ Hc), app_nil_r.
  split; [reflexivity|]. unfold dns_calls in *. now rewrite List.filter_app, Hc, app_nil_r.
Qed.

Lemma update_zone_failure (request : Request) (hostname : string)
    (myip : option IPvAnyAddress) (ip : IPvAnyAddress) (w w' : World) (e : exn) :
  fst (target_ip request myip w) = Ok ip ->
  get_hosted_zone_id_from_fqdn hostname w = (Raise e, w') ->
  update request hostname myip w = (Raise e, w').
Proof.
  intros Ht Hz. unfold update, bind at 1. rewrite (target_ip_ok _ _ _ _ Ht).
  unfold bind at 1. now rewrite Hz.
Qed.

(** C9. A host name that ends with a dot keeps that dot in its candidate
    zone name ([label.rest.] gives [rest.]), and the filter compares zone
    names with the candidate followed by one more dot.  No name that the
    provider returns in normalized form (one trailing dot) is equal to
    that, so zone resolution raises the exception of status 400 for the
    zone, whichever zones are registered, and so does [update] for a
    request whose target IP is known. *)
Theorem trailing_dot_hostname_never_resolves (h : string) (w : World) :
  raw_literal h = Some h ->
  (forall z, In z (zones w) -> normalized_name (zone_Name z) = true) ->
  (forall label rest,
     Str.has_char "." label = false -> h = label +:+ "." +:+ rest ->
     zone_name_of (h +:+ ".") = rest +:+ ".") /\
  get_hosted_zone_id_from_fqdn (h +:+ ".") w =
    (Raise (HTTPException 400
              ("Hosted zone " +:+ zone_name_of (h +:+ ".") +:+ " not found") []),
     after_calls w [ListHostedZonesByName (zone_name_of (h +:+ ".")); ListHostedZones]) /\
  (forall (request : Request) (myip : option IPvAnyAddress) (ip : IPvAnyAddress),
     fst (target_ip request myip w) = Ok ip ->
     fst (update request (h +:+ ".") myip w) =
       Raise (HTTPException 400
                ("Hosted zone " +:+ zone_name_of (h +:+ ".") +:+ " not found") []) /\
     http_status (fst (update request (h +:+ ".") myip w)) = 400).
Proof.
  intros Hh Hnorm.
  assert (Hstrip : forall label rest,
             Str.has_char "." label = false -> h = label +:+ "." +:+ rest ->
             zone_name_of (h +:+ ".") = rest +:+ ".").
  { intros label rest Hl ->. rewrite append_assoc.
    change (("." +:+ rest) +:+ ".") with ("." +:+ (rest +:+ ".")).
    now apply zone_name_of_strip. }
  assert (Hlit : raw_literal (h +:+ ".") = Some (h +:+ ".")).
  { apply raw_literal_app. split; [exact Hh | exact raw_literal_dot]. }
  assert (Hbad : normalized_name (zone_name_of (h +:+ ".") +:+ ".") = false).
  { destruct (Str.has_char "." h) eqn:E.
    - destruct (has_char_first _ _ E) as (a & b & Hab & Ha).
      rewrite (Hstrip a b Ha Hab). rewrite append_assoc.
      apply normalized_name_not_double_dot.
    - unfold zone_name_of.
      change (h +:+ ".") with (h +:+ String "." "").
      rewrite (split_1_first _ _ _ E). reflexivity. }
  assert (Hnone : find_zone (zone_name_of (h +:+ ".") +:+ ".") w = None).
  { unfold find_zone. apply find_none_all. intros z Hin.
    apply String.eqb_neq. intros Heq. specialize (Hnorm z Hin).
    rewrite Heq in Hnorm. congruence. }
  assert (Hrun := get_hosted_zone_id_run (h +:+ ".") w
                    (raw_literal_zone_name _ Hlit)).
  rewrite Hnone in Hrun. unfold zone_not_found, zone_calls in Hrun.
  split; [exact Hstrip|]. split; [exact Hrun|].
  intros request myip ip Ht.
  rewrite (update_zone_failure _ _ _ _ _ _ _ Ht Hrun). split; reflexivity.
Qed.

Lemma reconcile_outcome_match (hostname : string) (ip : IPvAnyAddress) (w : World)
    (z : HostedZone) :
  find_zone (zone_name_of hostname +:+ ".") w = Some z ->
  has_record any_type (listed_sets w (zone_Id z) hostname) (hostname +:+ ".") (ip_str ip) ->
  reconcile_outcome hostname ip w =
    (Ok (PlainText ("nochg " +:+ ip_str ip)),
     after_calls w (zone_calls hostname ++ [record_call hostname (zone_Id z)])).
Proof.
  intros Hz Hr. unfold reconcile_outcome. rewrite Hz.
  apply search_records_truthy in Hr. now rewrite Hr.
Qed.

Lemma reconcile_outcome_no_match (hostname : string) (ip : IPvAnyAddress) (w : World)
    (z : HostedZone) :
  find_zone (zone_name_of hostname +:+ ".") w = Some z ->
  ~ has_record any_type (listed_sets w (zone_Id z) hostname) (hostname +:+ ".") (ip_str ip) ->
  reconcile_outcome hostname ip w =
    (Ok (PlainText ("good " +:+ ip_str ip)),
     after_upsert
       (after_calls w (zone_calls hostname ++ [record_call hostname (zone_Id z)]))
       hostname (zone_Id z) ip).
Proof.
  intros Hz Hr. unfold reconcile_outcome. rewrite Hz.
  destruct (truthy _) eqn:E; [|reflexivity].
  apply search_records_truthy in E. contradiction.
Qed.

Lemma trace_after_calls (w : World) (calls : list Event) :
  trace (after_calls w calls) = trace w ++ calls.
Proof. reflexivity. Qed.

Lemma trace_after_upsert (w : World) (hostname zone_id : string) (ip : IPvAnyAddress) :
  trace (after_upsert w hostname zone_id ip) =
  trace w ++ [ChangeResourceRecordSets zone_id (upsert_batch hostname ip)].
Proof. reflexivity. Qed.

Lemma dns_after_upsert (w : World) (hostname zone_id : string) (ip : IPvAnyAddress) :
  dns (after_upsert w hostname zone_id ip) =
  change_resource_record_sets (dns w) zone_id (upsert_batch hostname ip).
Proof. reflexivity. Qed.

Lemma mutating_zone_record_calls (hostname zone_id : string) :
  mutating_calls (zone_calls hostname ++ [record_call hostname zone_id]) = [].
Proof. reflexivity. Qed.

(** An existing record of the target value: [nochg], and nothing is
    written. *)
Lemma existing_record_nochg (c : HTTPBasicCredentials) (request : Request)
    (hostname : string) (myip : option IPvAnyAddress) (ip : IPvAnyAddress)
    (z : HostedZone) (w w1 : World) :
  validate_credentials c w = (Ok tt, w1) ->
  fst (target_ip request myip w1) = Ok ip ->
  raw_literal hostname = Some hostname ->
  raw_literal (ip_str ip) = Some (ip_str ip) ->
  find_zone (zone_name_of hostname +:+ ".") w1 = Some z ->
  has_record type_A (listed_sets w1 (zone_Id z) hostname) (hostname +:+ ".") (ip_str ip) ->
  exists w2,
    nic_update c request hostname myip w = (Ok (PlainText ("nochg " +:+ ip_str ip)), w2) /\
    mutating_calls (trace w2) = mutating_calls (trace w) /\
    dns w2 = dns w.
Proof.
  intros Hv Ht Hh Hi Hz Hr.
  rewrite (nic_update_run _ _ _ _ _ _ _ Hv Ht Hh Hi).
  rewrite (reconcile_outcome_match _ _ _ _ Hz (has_record_any _ _ _ _ Hr)).
  destruct (validate_credentials_mutating _ _ _ _ Hv) as (Hd & Hm & _).
  eexists. split; [reflexivity|]. rewrite trace_after_calls, dns_after_calls.
  split; [|exact Hd].
  now rewrite mutating_calls_app, mutating_zone_record_calls, app_nil_r.
Qed.

(** C2, amended. An authenticated request whose zone resolves, and for
    which the listing holds no record set named [hostname.], of any type,
    with a value equal to the text of the target IP, makes exactly one
    mutating call: the UPSERT of the A record set of [hostname] with TTL
    60 and the target IP as its single value; the response is 200 with
    body [good <ip>]. *)
Theorem no_matching_record_upserts_once_and_answers_good
    (c : HTTPBasicCredentials) (request : Request) (hostname : string)
    (myip : option IPvAnyAddress) (ip : IPvAnyAddress) (z : HostedZone)
    (w w1 : World) :
  validate_credentials c w = (Ok tt, w1) ->
  fst (target_ip request myip w1) = Ok ip ->
  raw_literal hostname = Some hostname ->
  raw_literal (ip_str ip) = Some (ip_str ip) ->
  find_zone (zone_name_of hostname +:+ ".") w1 = Some z ->
  ~ has_record any_type (listed_sets w1 (zone_Id z) hostname) (hostname +:+ ".") (ip_str ip) ->
  let upsert :=
    ChangeResourceRecordSets (zone_Id z)
      [ {| Action := "UPSERT";
           change_ResourceRecordSet :=
             {| rrs_Name := hostname;
                rrs_Type := "A";
                rrs_TTL := 60;
                rrs_ResourceRecords := [ {| Value := ip_str ip |} ] |} |} ] in
  exists w2,
    nic_update c request hostname myip w =
      (Ok {| body := "good " +:+ ip_str ip; status_code := 200 |}, w2) /\
    mutating_calls (trace w2) = mutating_calls (trace w) ++ [upsert] /\
    dns w2 =
      change_resource_record_sets (dns w) (zone_Id z)
        [ {| Action := "UPSERT";
             change_ResourceRecordSet :=
               {| rrs_Name := hostname;
                  rrs_Type := "A";
                  rrs_TTL := 60;
                  rrs_ResourceRecords := [ {| Value := ip_str ip |} ] |} |} ].
Proof.
  intros Hv Ht Hh Hi Hz Hr upsert.
  rewrite (nic_update_run _ _ _ _ _ _ _ Hv Ht Hh Hi).
  rewrite (reconcile_outcome_no_match _ _ _ _ Hz Hr).
  destruct (validate_credentials_mutating _ _ _ _ Hv) as (Hd & Hm & _).
  eexists. split; [reflexivity|].
  rewrite trace_after_upsert, dns_after_upsert, trace_after_calls, dns_after_calls.
  split.
  - rewrite (mutating_calls_app (trace w1 ++ _)), (mutating_calls_app (trace w1)).
    rewrite mutating_zone_record_calls, app_nil_r, Hm. reflexivity.
  - unfold upsert_batch, dns_ttl. now rewrite Hd.
Qed.

(** What a request that returned a response has gone through. *)
Lemma nic_update_ok_inv (c : HTTPBasicCredentials) (request : Request)
    (hostname : string) (myip : option IPvAnyAddress) (w w2 : World)
    (resp : PlainTextResponse) :
  nic_update c request hostname myip w = (Ok resp, w2) ->
  exists w1 ip,
    validate_credentials c w = (Ok tt, w1) /\
    fst (target_ip request myip w1) = Ok ip /\
    raw_literal hostname = Some hostname /\
    raw_literal (ip_str ip) = Some (ip_str ip) /\
    reconcile_outcome hostname ip w1 = (Ok resp, w2).
Proof.
  intros H. unfold nic_update, bind at 1 in H.
  destruct (validate_credentials c w) as [[[]|e] w1] eqn:Hv; [|discriminate].
  exists w1. unfold update, bind at 1 in H.
  pose proof (target_ip_world request myip w1) as Hw.
  destruct (target_ip request myip w1) as [[ip|e] w1'] eqn:Ht; [|discriminate].
  simpl in Hw. subst w1'. exists ip.
  unfold bind at 1 in H.
  destruct (raw_literal_cases (zone_name_of hostname +:+ ".")) as [Hzl|Hzl].
  2:{ rewrite (get_hosted_zone_id_not_literal _ _ Hzl) in H. discriminate. }
  rewrite (get_hosted_zone_id_run _ _ Hzl) in H.
  destruct (find_zone (zone_name_of hostname +:+ ".") w1) as [z|] eqn:Hz;
    [|discriminate].
  unfold bind at 1 in H.
  destruct (raw_literal_cases (hostname +:+ ".")) as [Hn|Hn].
  2:{ destruct (is_existing_record_exists_not_literal hostname (zone_Id z) ip
                  (after_calls w1 (zone_calls hostname)) (or_introl Hn)) as (e & He).
      rewrite He in H. discriminate. }
  destruct (raw_literal_cases (ip_str ip)) as [Hi|Hi].
  2:{ destruct (is_existing_record_exists_not_literal hostname (zone_Id z) ip
                  (after_calls w1 (zone_calls hostname)) (or_intror Hi)) as (e & He).
      rewrite He in H. discriminate. }
  assert (Hh : raw_literal hostname = Some hostname).
  { apply raw_literal_app in Hn. tauto. }
  repeat split; auto.
  rewrite <- H. rewrite <- (update_run request hostname (Some ip) ip w1 eq_refl Hh Hi).
  unfold update, bind at 1. simpl.
  unfold bind at 1. rewrite (get_hosted_zone_id_run _ _ Hzl), Hz.
  reflexivity.
Qed.

Lemma only_calls_after (w : World) (calls : list Event) :
  mutating_calls calls = [] -> only_calls w (after_calls w calls).
Proof. intros H. exists calls. auto. Qed.

Lemma update_world (request : Request) (hostname : string)
    (myip : option IPvAnyAddress) (w : World) :
  let w2 := snd (update request hostname myip w) in
  only_calls w w2 \/ calls_then_upsert hostname w w2.
Proof.
  cbv zeta. remember (update request hostname myip w) as u eqn:Hu.
  unfold update, bind at 1 in Hu.
  pose proof (target_ip_world request myip w) as Hw.
  destruct (target_ip request myip w) as [[ip|e] w'] eqn:Ht; simpl in Hw; subst w'.
  2:{ subst u. left. rewrite <- (after_calls_nil w) at 2. now apply only_calls_after. }
  unfold bind at 1 in Hu.
  destruct (raw_literal_cases (zone_name_of hostname +:+ ".")) as [Hzl|Hzl].
  2:{ rewrite (get_hosted_zone_id_not_literal _ _ Hzl) in Hu. subst u. left.
      now apply only_calls_after. }
  rewrite (get_hosted_zone_id_run _ _ Hzl) in Hu.
  destruct (find_zone (zone_name_of hostname +:+ ".") w) as [z|] eqn:Hz.
  2:{ subst u. left. now apply only_calls_after. }
  unfold bind at 1 in Hu.
  destruct (raw_literal_cases (hostname +:+ ".")) as [Hn|Hn].
  2:{ destruct (is_existing_record_exists_not_literal hostname (zone_Id z) ip
                  (after_calls w (zone_calls hostname)) (or_introl Hn)) as (e & He).
      rewrite He in Hu. subst u. left. simpl snd. rewrite after_calls_app.
      now apply only_calls_after. }
  destruct (raw_literal_cases (ip_str ip)) as [Hi|Hi].
  2:{ destruct (is_existing_record_exists_not_literal hostname (zone_Id z) ip
                  (after_calls w (zone_calls hostname)) (or_intror Hi)) as (e & He).
      rewrite He in Hu. subst u. left. simpl snd. rewrite after_calls_app.
      now apply only_calls_after. }
  rewrite (is_existing_record_exists_run _ _ _ _ Hn Hi), after_calls_app in Hu.
  destruct (truthy _).
  - subst u. left. now apply only_calls_after.
  - unfold bind in Hu. rewrite update_r53_record_run in Hu. subst u. right.
    simpl snd.
    exists (zone_calls hostname ++ [record_call hostname (zone_Id z)]), z, ip.
    rewrite trace_after_upsert, dns_after_upsert, trace_after_calls, dns_after_calls.
    rewrite <- app_assoc. repeat split; auto.
Qed.

Lemma validate_credentials_only_calls (c : HTTPBasicCredentials) (w : World) :
  exists calls,
    mutating_calls calls = [] /\
    dns (snd (validate_credentials c w)) = dns w /\
    trace (snd (validate_credentials c w)) = trace w ++ calls.
Proof.
  pose proof (validate_credentials_world c w) as H.
  destruct (validate_credentials c w) as [r w1]. destruct H as (calls & (_ & Hd & Ht) & Hc).
  exists calls. simpl. auto using dns_calls_mutating.
Qed.

(** Whatever the request and its outcome, the world afterwards is the
    world before with calls added, none of them mutating, and then at
    most one upsert for the host name in a zone of the candidate name. *)
Lemma nic_update_world (c : HTTPBasicCredentials) (request : Request)
    (hostname : string) (myip : option IPvAnyAddress) (w : World) :
  let w2 := snd (nic_update c request hostname myip w) in
  (exists calls,
     mutating_calls calls = [] /\ dns w2 = dns w /\ trace w2 = trace w ++ calls) \/
  (exists calls z ip,
     mutating_calls calls = [] /\
     find_zone (zone_name_of hostname +:+ ".") w = Some z /\
     dns w2 = change_resource_record_sets (dns w) (zone_Id z) (upsert_batch hostname ip) /\
     trace w2 =
       trace w ++ calls ++ [ChangeResourceRecordSets (zone_Id z) (upsert_batch hostname ip)]).
Proof.
  cbv zeta. remember (nic_update c request hostname myip w) as u eqn:Hu.
  destruct (validate_credentials_only_calls c w) as (calls0 & Hm0 & Hd0 & Ht0).
  unfold nic_update, bind in Hu.
  destruct (validate_credentials c w) as [[[]|e] w1]; simpl in Hd0, Ht0.
  2:{ subst u. left. exists calls0. auto. }
  subst u. destruct (update_world request hostname myip w1) as [H|H].
  - left. destruct H as (calls & Hm & Hd & Ht & _).
    exists (calls0 ++ calls). rewrite mutating_calls_app, Hm0, Hm, Hd, Ht, Ht0, Hd0.
    rewrite app_assoc. auto.
  - right. destruct H as (calls & z & ip & Hm & Hz & Hd & Ht & _).
    exists (calls0 ++ calls), z, ip.
    rewrite mutating_calls_app, Hm0, Hm, Hd, Ht, Ht0, Hd0.
    rewrite <- !app_assoc. repeat split; auto.
    unfold find_zone, zones in *. now rewrite <- Hd0.
Qed.

End Properties.

(** ** With the reference provider *)

Section R53Properties.

Context {IP : IPLib}.

Lemma upsert_In_new (rs : ResourceRecordSet) (l : list ResourceRecordSet) :
  In rs (R53.upsert rs l).
Proof.
  induction l as [|x l IH]; simpl; [auto|].
  destruct (R53.same_key x rs); simpl; auto.
Qed.

Lemma upsert_In_other (rs x : ResourceRecordSet) (l : list ResourceRecordSet) :
  In x l -> R53.same_key x rs = false -> In x (R53.upsert rs l).
Proof.
  induction l as [|y l IH]; simpl; [tauto|].
  intros [->|Hin] Hk.
  - rewrite Hk. simpl. auto.
  - destruct (R53.same_key y rs); simpl; auto.
Qed.

Lemma same_key_false (x rs : ResourceRecordSet) :
  rrs_Name x <> rrs_Name rs \/ rrs_Type x <> rrs_Type rs ->
  R53.same_key x rs = false.
Proof.
  unfold R53.same_key. intros [H|H]; apply String.eqb_neq in H; rewrite H;
    [reflexivity | apply andb_false_r].
Qed.

Lemma hosted_zones_change (st : R53.state) (zone_id : string) (batch : list Change) :
  R53.hosted_zones (R53.change st zone_id batch) = R53.hosted_zones st.
Proof. unfold R53.change. now destruct (R53.known_zone st zone_id). Qed.

Lemma sets_of_change_other (st : R53.state) (zone_id other : string) (batch : list Change) :
  other <> zone_id ->
  R53.sets_of (R53.change st zone_id batch) other = R53.sets_of st other.
Proof.
  intros Hne. unfold R53.change. destruct (R53.known_zone st zone_id); [|reflexivity].
  unfold R53.sets_of; simpl. now rewrite lookup_insert_ne.
Qed.

Lemma sets_of_change_same (st : R53.state) (zone_id : string) (batch : list Change) :
  R53.known_zone st zone_id = true ->
  R53.sets_of (R53.change st zone_id batch) zone_id =
  fold_left R53.apply_change batch (R53.sets_of st zone_id).
Proof.
  intros Hk. unfold R53.change. rewrite Hk.
  unfold R53.sets_of at 1; simpl. now rewrite lookup_insert_eq.
Qed.

Lemma apply_upsert_batch (hostname : string) (ip : IPvAnyAddress)
    (l : list ResourceRecordSet) :
  fold_left R53.apply_change (upsert_batch hostname ip) l =
  R53.upsert
    {| rrs_Name := R53.normalize_name hostname;
       rrs_Type := "A";
       rrs_TTL := 60;
       rrs_ResourceRecords := [ {| Value := ip_str ip |} ] |} l.
Proof. reflexivity. Qed.

Lemma find_zone_known (name : string) (w : World) (z : HostedZone) :
  find_zone name w = Some z -> R53.known_zone (dns w) (zone_Id z) = true.
Proof.
  unfold find_zone, zones. simpl. rewrite app_nil_r. intros H.
  apply find_some in H. destruct H as [Hin _].
  unfold R53.known_zone. apply existsb_exists. exists z.
  split; [exact Hin | apply String.eqb_refl].
Qed.

Lemma find_zone_name (name : string) (w : World) (z : HostedZone) :
  find_zone name w = Some z -> In z (R53.hosted_zones (dns w)) /\ zone_Name z = name.
Proof.
  unfold find_zone, zones. simpl. rewrite app_nil_r. intros H.
  apply find_some in H. destruct H as [Hin Hn]. now apply String.eqb_eq in Hn.
Qed.

Lemma endswith_dot_app (x y : string) :
  y <> "" -> Str.endswith (x +:+ y) "." = Str.endswith y ".".
Proof.
  intros Hy. unfold Str.endswith. rewrite chars_app, rev_app_distr.
  destruct (rev (Str.chars y)) as [|c l] eqn:E.
  - exfalso. apply Hy. destruct y; [reflexivity|].
    apply (f_equal (@length ascii)) in E. rewrite length_rev in E. discriminate.
  - reflexivity.
Qed.

Lemma endswith_double_dot (m : string) :
  Str.endswith (m +:+ ".") ".." = Str.endswith m ".".
Proof.
  unfold Str.endswith. rewrite chars_app, rev_app_distr. reflexivity.
Qed.

(** A host name that resolves against normalized zone names has no
    trailing dot, so the provider stores its sets under [hostname.]. *)
Lemma resolved_hostname_normalize (hostname : string) (w : World) (z : HostedZone) :
  R53.wf (dns w) ->
  find_zone (zone_name_of hostname +:+ ".") w = Some z ->
  R53.normalize_name hostname = hostname +:+ ".".
Proof.
  intros Hwf Hz. apply find_zone_name in Hz. destruct Hz as [Hin Hn].
  specialize (Hwf z Hin). rewrite Hn in Hwf. unfold normalized_name in Hwf.
  apply andb_true_iff in Hwf. destruct Hwf as [Hwf Hroot].
  apply andb_true_iff in Hwf. destruct Hwf as [_ Hdd].
  rewrite endswith_double_dot in Hdd. apply negb_true_iff in Hdd.
  apply negb_true_iff, String.eqb_neq in Hroot.
  assert (Hne : zone_name_of hostname <> "").
  { intros E. rewrite E in Hroot. now apply Hroot. }
  assert (He : Str.endswith hostname "." = false).
  { destruct (zone_name_of_cases hostname) as [[_ E] | (a & b & Hh & _ & E)].
    - now rewrite E in Hdd.
    - rewrite E in *. rewrite Hh.
      change (String "." b) with ("." +:+ b). rewrite <- append_assoc.
      now rewrite endswith_dot_app. }
  unfold R53.normalize_name. now rewrite He.
Qed.

Lemma validate_credentials_again (c : HTTPBasicCredentials) (w w1 w' : World) :
  validate_credentials c w = (Ok tt, w1) ->
  admin_password_cache w' = admin_password_cache w1 ->
  validate_credentials c w' = (Ok tt, w').
Proof.
  intros Hv Hc.
  pose proof (get_admin_password_world w) as Hg.
  destruct (get_admin_password w) as [[p|e] w0] eqn:E.
  - destruct Hg as (calls & _ & _ & Hcache).
    rewrite (validate_credentials_run c w w0 p E) in Hv.
    destruct (String.eqb "admin" (username c) && String.eqb p (password c)) eqn:Hk;
      [|discriminate].
    injection Hv as <-.
    rewrite (validate_credentials_run c w' w' p).
    + now rewrite Hk.
    + apply get_admin_password_cached. rewrite Hc. now apply Hcache.
  - rewrite (validate_credentials_raise c w w0 e E) in Hv. discriminate.
Qed.

(** After a request that returned a response, the same request again
    answers [nochg] for the same address and writes nothing. *)
Lemma repeated_update_nochg (c : HTTPBasicCredentials) (request : Request)
    (hostname : string) (myip : option IPvAnyAddress) (w w2 : World)
    (resp : PlainTextResponse) :
  R53.wf (dns w) ->
  nic_update c request hostname myip w = (Ok resp, w2) ->
  exists ip,
    (resp = PlainText ("good " +:+ ip_str ip) \/ resp = PlainText ("nochg " +:+ ip_str ip)) /\
    exists w3,
      nic_update c request hostname myip w2 = (Ok (PlainText ("nochg " +:+ ip_str ip)), w3) /\
      mutating_calls (trace w3) = mutating_calls (trace w2) /\
      dns w3 = dns w2.
Proof.
  intros Hwf H.
  destruct (nic_update_ok_inv _ _ _ _ _ _ _ H) as (w1 & ip & Hv & Ht & Hh & Hi & Hr).
  exists ip.
  destruct (validate_credentials_mutating _ _ _ _ Hv) as (Hd1 & _ & _).
  unfold reconcile_outcome in Hr.
  destruct (find_zone (zone_name_of hostname +:+ ".") w1) as [z|] eqn:Hz;
    [|discriminate].
  assert (Hc2 : admin_password_cache w2 = admin_password_cache w1).
  { destruct (truthy _) in Hr; injection Hr as _ <-; reflexivity. }
  assert (Hz2 : find_zone (zone_name_of hostname +:+ ".") w2 = Some z).
  { rewrite <- Hz. unfold find_zone, zones.
    destruct (truthy _) in Hr; injection Hr as _ <-; [reflexivity|].
    rewrite dns_after_upsert, dns_after_calls. simpl.
    now rewrite hosted_zones_change. }
  assert (Hrec : has_record type_A (listed_sets w2 (zone_Id z) hostname)
                   (hostname +:+ ".") (ip_str ip) \/
                 has_record any_type (listed_sets w2 (zone_Id z) hostname)
                   (hostname +:+ ".") (ip_str ip)).
  { destruct (truthy _) eqn:Etr in Hr; injection Hr as _ <-.
    - right. apply search_records_truthy in Etr. exact Etr.
    - left. unfold listed_sets. rewrite dns_after_upsert, dns_after_calls. simpl.
      rewrite sets_of_change_same by (eapply find_zone_known; exact Hz).
      rewrite apply_upsert_batch.
      rewrite (resolved_hostname_normalize hostname w1 z) by (rewrite ?Hd1; auto).
      eexists _, {| Value := ip_str ip |}.
      split; [apply upsert_In_new|]. simpl. auto. }
  assert (Hany : has_record any_type (listed_sets w2 (zone_Id z) hostname)
                   (hostname +:+ ".") (ip_str ip)).
  { destruct Hrec as [Hrec|Hrec]; [eapply has_record_any|]; exact Hrec. }
  split.
  { destruct (truthy _) in Hr; injection Hr as <- _; auto. }
  pose proof (validate_credentials_again c w w1 w2 Hv Hc2) as Hv2.
  assert (Ht2 : fst (target_ip request myip w2) = Ok ip).
  { now rewrite (target_ip_any_world request myip w1 w2). }
  rewrite (nic_update_run _ _ _ _ _ _ _ Hv2 Ht2 Hh Hi).
  rewrite (reconcile_outcome_match _ _ _ _ Hz2 Hany).
  eexists. split; [reflexivity|].
  rewrite trace_after_calls, dns_after_calls, mutating_calls_app.
  now rewrite mutating_zone_record_calls, app_nil_r.
Qed.

(** C5, amended. Whatever the request, the only mutating calls it adds
    are upserts of the A record set of the host name with TTL 60 and a
    single value; the hosted zones stay as they are, and so does every
    record set of another name or of another type, in every zone.  (The A
    record set of the host name is replaced as a whole.) *)
Theorem update_touches_only_the_A_set_of_hostname
    (c : HTTPBasicCredentials) (request : Request) (hostname : string)
    (myip : option IPvAnyAddress) (w : World) :
  let w2 := snd (nic_update c request hostname myip w) in
  (exists calls,
     trace w2 = trace w ++ calls /\
     forall e, In e (mutating_calls calls) ->
       exists zone_id value,
         e = ChangeResourceRecordSets zone_id
               [ {| Action := "UPSERT";
                    change_ResourceRecordSet :=
                      {| rrs_Name := hostname;
                         rrs_Type := "A";
                         rrs_TTL := 60;
                         rrs_ResourceRecords := [ {| Value := value |} ] |} |} ]) /\
  R53.hosted_zones (dns w2) = R53.hosted_zones (dns w) /\
  (forall zone_id rs,
     In rs (R53.sets_of (dns w) zone_id) ->
     rrs_Name rs <> R53.normalize_name hostname \/ rrs_Type rs <> "A" ->
     In rs (R53.sets_of (dns w2) zone_id)).
Proof.
  cbv zeta. destruct (nic_update_world c request hostname myip w) as [H|H].
  - destruct H as (calls & Hm & Hd & Ht). split; [|split].
    + exists calls. split; [exact Ht|]. rewrite Hm. intros e [].
    + now rewrite Hd.
    + intros zone_id rs Hin _. now rewrite Hd.
  - destruct H as (calls & z & ip & Hm & Hz & Hd & Ht). split; [|split].
    + exists (calls ++ [ChangeResourceRecordSets (zone_Id z) (upsert_batch hostname ip)]).
      split; [exact Ht|]. rewrite mutating_calls_app, Hm. simpl.
      intros e [<-|[]]. exists (zone_Id z), (ip_str ip). reflexivity.
    + rewrite Hd. simpl. apply hosted_zones_change.
    + intros zone_id rs Hin Hkey. rewrite Hd. simpl.
      destruct (String.eqb zone_id (zone_Id z)) eqn:E.
      * apply String.eqb_eq in E. subst zone_id.
        rewrite sets_of_change_same by (eapply find_zone_known; exact Hz).
        rewrite apply_upsert_batch. apply upsert_In_other; [exact Hin|].
        apply same_key_false. exact Hkey.
      * apply String.eqb_neq in E. now rewrite sets_of_change_other.
Qed.

End R53Properties.

(** ** The idempotence of the update *)

(** C1. An authenticated request whose zone resolves and whose listing
    holds an A record set named [hostname.] with a value equal to the
    text of the target IP answers [nochg <ip>]; it makes no mutating
    call and leaves the DNS state as it is.  Consequently, against the
    reference provider, the request that has answered [good <ip>] answers
    [nochg <ip>] when it is made again, and writes nothing. *)
Theorem matching_A_record_answers_nochg_and_update_is_idempotent :
  (forall (IP : IPLib) (DNS : Provider)
          (c : HTTPBasicCredentials) (request : Request) (hostname : string)
          (myip : option IPvAnyAddress) (ip : IPvAnyAddress) (z : HostedZone)
          (w w1 : World),
     validate_credentials c w = (Ok tt, w1) ->
     fst (target_ip request myip w1) = Ok ip ->
     raw_literal hostname = Some hostname ->
     raw_literal (ip_str ip) = Some (ip_str ip) ->
     find_zone (zone_name_of hostname +:+ ".") w1 = Some z ->
     has_record type_A (listed_sets w1 (zone_Id z) hostname)
       (hostname +:+ ".") (ip_str ip) ->
     exists w2,
       nic_update c request hostname myip w =
         (Ok {| body := "nochg " +:+ ip_str ip; status_code := 200 |}, w2) /\
       mutating_calls (trace w2) = mutating_calls (trace w) /\
       dns w2 = dns w) /\
  (forall (IP : IPLib)
          (c : HTTPBasicCredentials) (request : Request) (hostname : string)
          (myip : option IPvAnyAddress) (text : string)
          (w w2 : @World R53_provider),
     R53.wf (dns w) ->
     nic_update c request hostname myip w =
       (Ok {| body := "good " +:+ text; status_code := 200 |}, w2) ->
     exists w3,
       nic_update c request hostname myip w2 =
         (Ok {| body := "nochg " +:+ text; status_code := 200 |}, w3) /\
       mutating_calls (trace w3) = mutating_calls (trace w2) /\
       dns w3 = dns w2).
Proof.
  split.
  - intros. eapply existing_record_nochg; eauto.
  - intros IP c request hostname myip text w w2 Hwf H.
    destruct (repeated_update_nochg c request hostname myip w w2 _ Hwf H)
      as (ip & Hresp & w3 & Hrun & Hm & Hd).
    assert (Htext : text = ip_str ip).
    { destruct Hresp as [E|E]; unfold PlainText in E.
      - injection E as E. exact E.
      - discriminate E. }
    subst text. exists w3. auto.
Qed.

(** ** The fixture of the unit tests, run *)

Example fixture_first_update :
  fst (nic_update Example.admin Example.no_headers Example.hostname
         (Some Example.ip) Example.start)
  = Ok {| body := "good 1.1.1.1"; status_code := 200 |}.
Proof. vm_compute. reflexivity. Qed.

Example fixture_record_after_update :
  R53.sets_of
    (dns (snd (nic_update Example.admin Example.no_headers Example.hostname
                 (Some Example.ip) Example.start)))
    Example.zone_id
  = [ {| rrs_Name := "www.example.com.";
         rrs_Type := "A";
         rrs_TTL := 60;
         rrs_ResourceRecords := [ {| Value := "1.1.1.1" |} ] |} ].
Proof. vm_compute. reflexivity. Qed.

Example fixture_bad_user :
  fst (nic_update {| username := "wrong"; password := "secret12345" |}
         Example.no_headers Example.hostname None Example.start)
  = Raise (HTTPException 401 "badauth" [("WWW-Authenticate", "Basic")]).
Proof. vm_compute. reflexivity. Qed.

Example fixture_wf : R53.wf Example.zones_only.
Proof. intros z [<-|[]]. reflexivity. Qed.

(** ** The two refuted sentences *)

(** C2 as the specification words it does not hold: a host with an AAAA
    record set [2001:db8::1] and no A record set, reported at
    [2001:db8::1], is answered [nochg] and nothing is upserted. *)
Lemma matching_AAAA_record_answers_nochg : ~ claim_no_matching_A_record_upserts.
Proof.
  intros H.
  pose (w := Example.world (Serving Example.secrets) Example.aaaa_only).
  specialize (H PyIP_lib R53_provider Example.admin Example.no_headers
                Example.hostname (Some Example.ip6) Example.ip6 Example.zone
                w (snd (validate_credentials Example.admin w))).
  destruct H as (w2 & Hrun & _).
  - vm_compute. reflexivity.
  - reflexivity.
  - reflexivity.
  - reflexivity.
  - vm_compute. reflexivity.
  - intros (rs & r & Hin & _ & Hty & _).
    vm_compute in Hin. destruct Hin as [<-|[]]. discriminate Hty.
  - apply (f_equal fst) in Hrun. vm_compute in Hrun. discriminate Hrun.
Qed.

(** C5 as the specification words it does not hold: a host whose A
    record set holds [1.1.1.1] and [2.2.2.2], reported at [3.3.3.3], has
    an A record set of the single value [3.3.3.3] afterwards. *)
Lemma update_replaces_the_values_of_the_A_set : ~ claim_update_removes_no_value.
Proof.
  intros H.
  specialize (H PyIP_lib Example.admin Example.no_headers Example.hostname
                (Some (PyIP.IPv4Address [3; 3; 3; 3]%N))
                (Example.world (Serving Example.secrets)
                   (Example.with_sets Example.two_values))
                Example.zone_id
                {| rrs_Name := "www.example.com.";
                   rrs_Type := "A";
                   rrs_TTL := 60;
                   rrs_ResourceRecords :=
                     [ {| Value := "1.1.1.1" |}; {| Value := "2.2.2.2" |} ] |}
                {| Value := "1.1.1.1" |}).
  destruct H as (rs' & Hin & _ & _ & Hr).
  - vm_compute. auto.
  - reflexivity.
  - simpl. auto.
  - vm_compute in Hin. destruct Hin as [<-|[]].
    destruct Hr as [E|[]]. discriminate E.
Qed.

(** ** The theorems at the fixture *)


(** C10 at the fixture. *)
Lemma authentication_is_admin_literal_and_secret_password_witness :
  fst (validate_credentials Example.admin Example.start) = Ok tt <->
  username Example.admin = "admin" /\ password Example.admin = "secret12345".
Proof.
  apply (authentication_is_admin_literal_and_secret_password
           Example.admin Example.start Example.secrets
           (<["password" := "secret12345"]> {[ "username" := "admin" ]})
           "secret12345").
  - reflexivity.
  - vm_compute. reflexivity.
  - vm_compute. reflexivity.
  - left. reflexivity.
Defined.



(** C7 at the fixture. *)
Lemma no_ip_source_is_400_before_any_dns_call_witness :
  http_status
    (fst (nic_update Example.admin Example.no_headers Example.hostname None
            Example.start)) = 400.
Proof.
  apply (no_ip_source_is_400_before_any_dns_call (IP := PyIP_lib)
           Example.admin Example.no_headers Example.hostname
           Example.start (snd (validate_credentials Example.admin Example.start))).
  - vm_compute. reflexivity.
  - intros kv [].
Defined.

(** C4 at the boundary case: [a.b.example.com] with only [example.com]
    registered. *)
Lemma zone_resolution_strips_one_label_exact_match_witness :
  fst (get_hosted_zone_id_from_fqdn "a.b.example.com" Example.start) =
    Raise (HTTPException 400 "Hosted zone b.example.com not found" []).
Proof.
  apply (zone_resolution_strips_one_label_exact_match "a" "b.example.com" Example.start).
  - reflexivity.
  - reflexivity.
  - intros z [<-|[]]. simpl. discriminate.
Defined.

(** C9 at [www.example.com.] with [example.com] registered. *)
Lemma trailing_dot_hostname_never_resolves_witness :
  get_hosted_zone_id_from_fqdn "www.example.com." Example.start =
    (Raise (HTTPException 400 "Hosted zone example.com. not found" []),
     after_calls Example.start [ListHostedZonesByName "example.com."; ListHostedZones]).
Proof.
  apply (trailing_dot_hostname_never_resolves "www.example.com" Example.start).
  - reflexivity.
  - intros z [<-|[]]. reflexivity.
Defined.

(** C1 at the fixture: the update made twice. *)
Lemma matching_A_record_answers_nochg_and_update_is_idempotent_witness :
  exists w3,
    nic_update Example.admin Example.no_headers Example.hostname (Some Example.ip)
      (snd (nic_update Example.admin Example.no_headers Example.hostname
              (Some Example.ip) Example.start)) =
      (Ok {| body := "nochg 1.1.1.1"; status_code := 200 |}, w3) /\
    mutating_calls (trace w3) =
      mutating_calls
        (trace (snd (nic_update Example.admin Example.no_headers Example.hostname
                       (Some Example.ip) Example.start))) /\
    dns w3 =
      dns (snd (nic_update Example.admin Example.no_headers Example.hostname
                  (Some Example.ip) Example.start)).
Proof.
  apply (proj2 matching_A_record_answers_nochg_and_update_is_idempotent
           PyIP_lib Example.admin Example.no_headers Example.hostname
           (Some Example.ip) "1.1.1.1" Example.start).
  - intros z [<-|[]]. reflexivity.
  - vm_compute. reflexivity.
Defined.

(** C2, amended, at the fixture. *)
Lemma no_matching_record_upserts_once_and_answers_good_witness :
  exists w2,
    nic_update Example.admin Example.no_headers Example.hostname (Some Example.ip)
      Example.start =
      (Ok {| body := "good 1.1.1.1"; status_code := 200 |}, w2) /\
    mutating_calls (trace w2) =
      [ChangeResourceRecordSets Example.zone_id
         [ {| Action := "UPSERT";
              change_ResourceRecordSet :=
                {| rrs_Name := "www.example.com";
                   rrs_Type := "A";
                   rrs_TTL := 60;
                   rrs_ResourceRecords := [ {| Value := "1.1.1.1" |} ] |} |} ]] /\
    dns w2 =
      R53.change Example.zones_only Example.zone_id
        [ {| Action := "UPSERT";
             change_ResourceRecordSet :=
               {| rrs_Name := "www.example.com";
                  rrs_Type := "A";
                  rrs_TTL := 60;
                  rrs_ResourceRecords := [ {| Value := "1.1.1.1" |} ] |} |} ].
Proof.
  apply (no_matching_record_upserts_once_and_answers_good (IP := PyIP_lib)
           Example.admin Example.no_headers Example.hostname (Some Example.ip)
           Example.ip Example.zone Example.start
           (snd (validate_credentials Example.admin Example.start))).
  - vm_compute. reflexivity.
  - reflexivity.
  - reflexivity.
  - reflexivity.
  - vm_compute. reflexivity.
  - intros (rs & r & Hin & _). exact Hin.
Defined.

(** C5, amended, at a host that has an A and an AAAA record set: the
    AAAA record set is still there after the update of the A record set. *)
Lemma update_touches_only_the_A_set_of_hostname_witness :
  In {| rrs_Name := "www.example.com.";
        rrs_Type := "AAAA";
        rrs_TTL := 300;
        rrs_ResourceRecords := [ {| Value := "2001:db8::1" |} ] |}
     (R53.sets_of
        (dns (snd (nic_update Example.admin Example.no_headers Example.hostname
                     (Some Example.ip)
                     (Example.world (Serving Example.secrets) Example.aaaa_only))))
        Example.zone_id).
Proof.
  apply (proj2 (proj2 (update_touches_only_the_A_set_of_hostname (IP := PyIP_lib)
                         Example.admin Example.no_headers Example.hostname
                         (Some Example.ip)
                         (Example.world (Serving Example.secrets) Example.aaaa_only)))).
  - vm_compute. auto.
  - right. simpl. discriminate.
Defined.

(** * Further properties of the code *)

Section MoreProperties.

Context {IP : IPLib} {DNS : Provider}.

(** ** [is_existing_record_exists] *)

(** X1. [is_existing_record_exists] makes one call, the record listing
    of the zone from the host name and type A on, and changes nothing.
    It answers [True] exactly when that listing holds a record set named
    [hostname.], of whatever type, with a record whose value is the text
    of the address: sets of other names and sets without records never
    count. *)
Theorem is_existing_record_exists_iff_named_set_holds_value
    (hostname zone_id : string) (ip : IPvAnyAddress) (w : World) :
  raw_literal hostname = Some hostname ->
  raw_literal (ip_str ip) = Some (ip_str ip) ->
  exists b : bool,
    is_existing_record_exists hostname zone_id ip w =
      (Ok b, after_calls w [ListResourceRecordSets zone_id hostname "A"]) /\
    (b = true <->
     exists rs r,
       In rs (list_resource_record_sets (dns w) zone_id hostname "A") /\
       rrs_Name rs = hostname +:+ "." /\
       In r (rrs_ResourceRecords rs) /\
       Value r = ip_str ip).
Proof.
  intros Hh Hi.
  assert (Hn : raw_literal (hostname +:+ ".") = Some (hostname +:+ ".")).
  { apply raw_literal_app. split; [exact Hh | exact raw_literal_dot]. }
  rewrite (is_existing_record_exists_run _ _ _ _ Hn Hi).
  eexists. split; [reflexivity|].
  rewrite search_records_truthy. unfold has_record, any_type, listed_sets.
  split.
  - intros (rs & r & ? & ? & _ & ? & ?). eauto 6.
  - intros (rs & r & ? & ? & ? & ?). exists rs, r. auto.
Qed.

(** ** [get_ip_from_headers] *)

(** X2. [get_ip_from_headers] catches the missing header only.  When an
    authenticated request has no [myip] and the value of its first
    [x-forwarded-for] header is no IP literal (a list of addresses, for
    one), the error of the address constructor leaves the handler as it
    is: the request ends in a 500, not in the 400 of the missing header,
    and no DNS call has been made. *)
Theorem forwarded_value_not_an_address_is_not_caught
    (c : HTTPBasicCredentials) (request : Request) (hostname v : string)
    (w w1 : World) :
  validate_credentials c w = (Ok tt, w1) ->
  headers_getitem (headers request) "x-forwarded-for" = Some v ->
  ip_parse v = None ->
  nic_update c request hostname None w =
    (Raise (PydanticCustomError "ip_any_address"), w1) /\
  http_status (fst (nic_update c request hostname None w)) = 500 /\
  dns w1 = dns w /\
  dns_calls (trace w1) = dns_calls (trace w).
Proof.
  intros Hv Hh Hp.
  assert (Hn : nic_update c request hostname None w =
               (Raise (PydanticCustomError "ip_any_address"), w1)).
  { unfold nic_update, bind at 1. rewrite Hv.
    unfold update, bind at 1, target_ip, get_ip_from_headers.
    now rewrite Hh, Hp. }
  rewrite Hn. split; [reflexivity|]. split; [reflexivity|].
  destruct (validate_credentials_mutating _ _ _ _ Hv) as (Hd & _ & Hc). auto.
Qed.

(** ** [get_admin_password] and [validate_credentials] *)

(** X3. Once a password is in the cache, the credentials are checked
    against it and the secret store is not read, whatever it holds by
    then: the check leaves the world as it is, passes exactly for
    [admin] with the cached password, and raises [badauth] otherwise.  A
    password changed in the store is therefore not accepted by this
    process, and the former one still is. *)
Theorem cached_password_decides_whatever_the_store_holds
    (c : HTTPBasicCredentials) (w : World) (p : string) :
  admin_password_cache w = Some p ->
  validate_credentials c w =
    (if String.eqb "admin" (username c) && String.eqb p (password c)
     then Ok tt
     else Raise (HTTPException 401 "badauth" [("WWW-Authenticate", "Basic")]),
     w) /\
  (fst (validate_credentials c w) = Ok tt <->
   username c = "admin" /\ password c = p).
Proof.
  intros Hc.
  rewrite (validate_credentials_run c w w p (get_admin_password_cached w p Hc)).
  split; [reflexivity|].
  pose proof (credentials_check c p) as Hk.
  destruct (String.eqb "admin" (username c) && String.eqb p (password c));
    cbn [fst].
  - split; [intros _; now apply Hk | reflexivity].
  - split; [discriminate|]. intros H. apply Hk in H. discriminate.
Qed.




(** ** [get_hosted_zone_id_from_fqdn] *)

(** X5. A host name without a dot has no label to take off:
    [split('.', 1)[-1]] is the host name itself, so the zone looked for
    is the one named [hostname.], and when there is none the 400 names
    the host name as the zone. *)
Theorem single_label_hostname_is_its_own_zone (hostname : string) (w : World) :
  Str.has_char "." hostname = false ->
  raw_literal hostname = Some hostname ->
  zone_name_of hostname = hostname /\
  get_hosted_zone_id_from_fqdn hostname w =
    (match find_zone (hostname +:+ ".") w with
     | Some z => Ok (zone_Id z)
     | None => Raise (HTTPException 400 ("Hosted zone " +:+ hostname +:+ " not found") [])
     end,
     after_calls w [ListHostedZonesByName hostname; ListHostedZones]).
Proof.
  intros Hd Hh.
  assert (Hz : zone_name_of hostname = hostname).
  { unfold zone_name_of. now rewrite (split_1_none _ _ Hd). }
  split; [exact Hz|].
  assert (Hrun := get_hosted_zone_id_run hostname w (raw_literal_zone_name _ Hh)).
  unfold zone_calls, zone_not_found in Hrun. now rewrite Hz in Hrun.
Qed.

(** ** The documentation routes *)



(** ** The course of a request *)

(** How [update] ends: with an exception after some of the listing
    calls, with [nochg] after the three listing calls, or with [good]
    after the upsert that follows them. *)
Lemma update_cases (request : Request) (hostname : string)
    (myip : option IPvAnyAddress) (w : World) :
  (exists e calls,
     update request hostname myip w = (Raise e, after_calls w calls) /\
     (calls = [] \/
      calls = [ListHostedZonesByName (zone_name_of hostname)] \/
      calls = zone_calls hostname \/
      exists zone_id, calls = zone_calls hostname ++ [record_call hostname zone_id])) \/
  (exists ip z,
     find_zone (zone_name_of hostname +:+ ".") w = Some z /\
     update request hostname myip w =
       (Ok (PlainText ("nochg " +:+ ip_str ip)),
        after_calls w (zone_calls hostname ++ [record_call hostname (zone_Id z)]))) \/
  (exists ip z,
     find_zone (zone_name_of hostname +:+ ".") w = Some z /\
     update request hostname myip w =
       (Ok (PlainText ("good " +:+ ip_str ip)),
        after_upsert
          (after_calls w (zone_calls hostname ++ [record_call hostname (zone_Id z)]))
          hostname (zone_Id z) ip)).
Proof.
  remember (update request hostname myip w) as u eqn:Hu.
  unfold update, bind at 1 in Hu.
  pose proof (target_ip_world request myip w) as Hw.
  destruct (target_ip request myip w) as [[ip|e] w'] eqn:Ht; simpl in Hw; subst w'.
  2:{ left. exists e, []. rewrite after_calls_nil. auto. }
  unfold bind at 1 in Hu.
  destruct (raw_literal_cases (zone_name_of hostname +:+ ".")) as [Hzl|Hzl].
  2:{ rewrite (get_hosted_zone_id_not_literal _ _ Hzl) in Hu. left. eauto 6. }
  rewrite (get_hosted_zone_id_run _ _ Hzl) in Hu.
  destruct (find_zone (zone_name_of hostname +:+ ".") w) as [z|] eqn:Hz.
  2:{ left. eauto 7. }
  unfold bind at 1 in Hu.
  destruct (raw_literal_cases (hostname +:+ ".")) as [Hn|Hn].
  2:{ destruct (is_existing_record_exists_not_literal hostname (zone_Id z) ip
                  (after_calls w (zone_calls hostname)) (or_introl Hn)) as (e & He).
      rewrite He, after_calls_app in Hu. left. exists e. eexists.
      split; [exact Hu|]. right. right. right. eauto. }
  destruct (raw_literal_cases (ip_str ip)) as [Hi|Hi].
  2:{ destruct (is_existing_record_exists_not_literal hostname (zone_Id z) ip
                  (after_calls w (zone_calls hostname)) (or_intror Hi)) as (e & He).
      rewrite He, after_calls_app in Hu. left. exists e. eexists.
      split; [exact Hu|]. right. right. right. eauto. }
  rewrite (is_existing_record_exists_run _ _ _ _ Hn Hi), after_calls_app in Hu.
  destruct (truthy _).
  - right. left. exists ip, z. auto.
  - unfold bind in Hu. rewrite update_r53_record_run in Hu.
    right. right. exists ip, z. auto.
Qed.





(** X13. No request clears or replaces a cached password: whatever the
    request on [/nic/update] and however it ends, a password that was in
    the cache before is the one in the cache after, and the secret store
    is as it was. *)
Theorem cached_password_outlives_every_request
    (c : HTTPBasicCredentials) (request : Request) (hostname : string)
    (myip : option IPvAnyAddress) (w : World) (p : string) :
  admin_password_cache w = Some p ->
  admin_password_cache (snd (nic_update c request hostname myip w)) = Some p /\
  secrets_backend (snd (nic_update c request hostname myip w)) = secrets_backend w /\
  forall e, In e (trace (snd (nic_update c request hostname myip w))) ->
            In e (trace w) \/ is_dns_call e = true.
Proof.
  intros Hc.
  pose proof (validate_credentials_run c w w p (get_admin_password_cached w p Hc)) as Hv.
  unfold nic_update, bind. rewrite Hv.
  destruct (String.eqb "admin" (username c) && String.eqb p (password c)).
  2:{ simpl. auto. }
  destruct (update_cases request hostname myip w)
    as [(e & calls & Hu & Hcalls) | [(ip & z & _ & Hu) | (ip & z & _ & Hu)]];
    rewrite Hu; simpl snd.
  - split; [exact Hc|]. split; [reflexivity|].
    intros ev Hin. rewrite trace_after_calls in Hin.
    apply in_app_or in Hin. destruct Hin as [Hin|Hin]; [now left|]. right.
    destruct Hcalls as [-> | [-> | [-> | (zid & ->)]]]; simpl in Hin;
      repeat (destruct Hin as [<-|Hin]; [reflexivity|]); destruct Hin.
  - split; [exact Hc|]. split; [reflexivity|].
    intros ev Hin. rewrite trace_after_calls in Hin.
    apply in_app_or in Hin. destruct Hin as [Hin|Hin]; [now left|]. right.
    simpl in Hin. repeat (destruct Hin as [<-|Hin]; [reflexivity|]). destruct Hin.
  - split; [exact Hc|]. split; [reflexivity|].
    intros ev Hin. rewrite trace_after_upsert, trace_after_calls in Hin.
    apply in_app_or in Hin. destruct Hin as [Hin|Hin].
    + apply in_app_or in Hin. destruct Hin as [Hin|Hin]; [now left|]. right.
      simpl in Hin. repeat (destruct Hin as [<-|Hin]; [reflexivity|]). destruct Hin.
    + right. destruct Hin as [<-|[]]. reflexivity.
Qed.

End MoreProperties.

(** ** The deployment stack *)

Lemma zone_permissions_cons (hosted_zone_arn : string -> string)
    (zone_name : string) (zone_config : gmap string (list string))
    (rest : list (string * gmap string (list string)))
    (l : list Dynr53Stack.PolicyStatement) :
  Dynr53Stack.zone_permissions hosted_zone_arn ((zone_name, zone_config) :: rest) = Ok l ->
  exists allowed l',
    zone_config !! "allowed_records" = Some allowed /\
    Dynr53Stack.zone_permissions hosted_zone_arn rest = Ok l' /\
    l = Dynr53Stack.zone_statements (hosted_zone_arn zone_name)
          (Dynr53Stack.fq_records zone_name allowed) ++ l'.
Proof.
  simpl. destruct (zone_config !! "allowed_records") as [allowed|]; [|discriminate].
  destruct (Dynr53Stack.zone_permissions hosted_zone_arn rest) as [l'|e]; [|discriminate].
  intros H. injection H as <-. eauto.
Qed.

(** X9. The statements that [zone_permissions] adds to the role are of
    two shapes only.  One allows [ChangeResourceRecordSets] and
    [ListResourceRecordSets] on the ARN of one configured zone, under
    the condition that the record names are among [x.zone] for the [x]
    of that zone's [allowed_records].  The other allows the two zone
    listings on [*].  So no statement allows a change on [*], on a zone
    that is not configured, or without the condition on the names. *)
Theorem zone_permissions_scopes_every_write
    (hosted_zone_arn : string -> string)
    (allowed_zones_config : list (string * gmap string (list string)))
    (l : list Dynr53Stack.PolicyStatement) (s : Dynr53Stack.PolicyStatement) :
  Dynr53Stack.zone_permissions hosted_zone_arn allowed_zones_config = Ok l ->
  In s l ->
  (exists zone_name zone_config allowed_records,
     In (zone_name, zone_config) allowed_zones_config /\
     zone_config !! "allowed_records" = Some allowed_records /\
     s = {| Dynr53Stack.actions := ["route53:ChangeResourceRecordSets";
                                    "route53:ListResourceRecordSets"];
            Dynr53Stack.resources := [hosted_zone_arn zone_name];
            Dynr53Stack.conditions :=
              [("ForAllValues:StringLike",
                [("route53:ChangeResourceRecordSetsNormalizedRecordNames",
                  map (fun x => x +:+ "." +:+ zone_name) allowed_records)])] |}) \/
  (s = {| Dynr53Stack.actions :=
            ["route53:ListHostedZonesByName"; "route53:ListHostedZones"];
          Dynr53Stack.resources := ["*"];
          Dynr53Stack.conditions := [] |} /\
   ~ In "route53:ChangeResourceRecordSets" (Dynr53Stack.actions s)).
Proof.
  revert l. induction allowed_zones_config as [|[zone_name zone_config] rest IH];
    intros l Hrun Hin.
  - injection Hrun as <-. destruct Hin.
  - destruct (zone_permissions_cons _ _ _ _ _ Hrun) as (allowed & l' & Hk & Hrest & ->).
    apply in_app_or in Hin. destruct Hin as [Hin|Hin].
    + destruct Hin as [<-|[<-|[]]].
      * left. exists zone_name, zone_config, allowed.
        split; [now left|]. split; [exact Hk | reflexivity].
      * right. split; [reflexivity|]. simpl. intros [E|[E|[]]]; discriminate E.
    + destruct (IH l' Hrest Hin) as [(zn & zc & al & Hz & Hal & Hs) | Hs].
      * left. exists zn, zc, al. split; [now right | auto].
      * right. exact Hs.
Qed.

(** X10. [zone_permissions] fails exactly when a zone of the
    configuration has no [allowed_records] member, with the [KeyError]
    of that key.  Otherwise it adds two statements for each configured
    zone, the statement of the zone listings once per zone, and none at
    all for an empty configuration. *)
Theorem zone_permissions_needs_allowed_records
    (hosted_zone_arn : string -> string)
    (allowed_zones_config : list (string * gmap string (list string))) :
  match Dynr53Stack.zone_permissions hosted_zone_arn allowed_zones_config with
  | Raise e =>
      e = KeyError "allowed_records" /\
      exists zone_name zone_config,
        In (zone_name, zone_config) allowed_zones_config /\
        zone_config !! "allowed_records" = None
  | Ok l =>
      (forall zone_name zone_config,
         In (zone_name, zone_config) allowed_zones_config ->
         exists allowed_records, zone_config !! "allowed_records" = Some allowed_records) /\
      length l = (2 * length allowed_zones_config)%nat
  end.
Proof.
  induction allowed_zones_config as [|[zone_name zone_config] rest IH]; simpl.
  - split; [intros ? ? []|reflexivity].
  - destruct (zone_config !! "allowed_records") as [allowed|] eqn:Hk.
    + destruct (Dynr53Stack.zone_permissions hosted_zone_arn rest) as [l'|e].
      * destruct IH as [Hall Hlen]. split.
        -- intros zn zc [E|Hin]; [injection E as <- <-; eauto | eauto].
        -- simpl. rewrite Hlen. lia.
      * destruct IH as (-> & zn & zc & Hin & Hnone). split; [reflexivity|].
        exists zn, zc. split; [now right | exact Hnone].
    + split; [reflexivity|]. exists zone_name, zone_config. split; [now left | exact Hk].
Qed.

Lemma string_length_append (a b : string) :
  String.length (a +:+ b) = (String.length a + String.length b)%nat.
Proof.
  induction a as [|c a IH]; [reflexivity|].
  rewrite append_cons. simpl. now rewrite IH.
Qed.

(** X11. The record names of a statement and the zone resolution of the
    handler agree for labels without a dot, and only for them.  For an
    allowed record [x] of a zone, the allowed name is [x.zone]; when [x]
    has no dot the handler's candidate zone for that host name is the
    zone; when [x] is [a.b] the policy allows the name but the handler
    looks for the zone [b.zone], never for the zone itself. *)
Theorem allowed_record_resolves_to_its_zone_iff_single_label
    (zone_name : string) (allowed_records : list string) (name : string) :
  In name (Dynr53Stack.fq_records zone_name allowed_records) ->
  exists x,
    In x allowed_records /\
    name = x +:+ "." +:+ zone_name /\
    (Str.has_char "." x = false -> zone_name_of name = zone_name) /\
    (Str.has_char "." x = true ->
     zone_name_of name <> zone_name /\
     exists a b, x = a +:+ "." +:+ b /\ Str.has_char "." a = false /\
                 zone_name_of name = b +:+ "." +:+ zone_name).
Proof.
  unfold Dynr53Stack.fq_records. intros Hin.
  apply List.in_map_iff in Hin. destruct Hin as (x & <- & Hx).
  exists x. split; [exact Hx|]. split; [reflexivity|]. split.
  - intros Hd. now apply zone_name_of_strip.
  - intros Hd. destruct (has_char_first _ _ Hd) as (a & b & -> & Ha).
    assert (Hz : zone_name_of ((a +:+ String "." b) +:+ "." +:+ zone_name)
                 = b +:+ "." +:+ zone_name).
    { rewrite append_assoc. rewrite append_cons.
      change (String "." (b +:+ "." +:+ zone_name))
        with ("." +:+ (b +:+ "." +:+ zone_name)).
      now apply zone_name_of_strip. }
    split.
    + rewrite Hz. intros E. apply (f_equal String.length) in E.
      rewrite !string_length_append in E. simpl in E. lia.
    + exists a, b. split; [reflexivity|]. split; [exact Ha | exact Hz].
Qed.

Section SecretProperties.

Context {DNS : Provider}.

(** X12. The stack and the handler name the same secret, the same member
    and the same user.  With a store that holds, under the name that
    [secrets] gives the secret, a JSON object whose member
    [generate_string_key] is [generated], a process with an empty cache
    accepts the user [default_user] with the password [generated] and
    no other password; the [username] member of the template plays no
    part. *)
Theorem provisioned_secret_authenticates_default_user
    (secrets : gmap string SecretString) (fields : gmap string string)
    (generated provided : string) (w : World) :
  secrets_backend w = Serving secrets ->
  admin_password_cache w = None ->
  secrets !! Dynr53Stack.secret_name Dynr53Stack.admin_user_secret
    = Some (JsonObject fields) ->
  fields !! Dynr53Stack.generate_string_key
              (Dynr53Stack.generate_secret_string Dynr53Stack.admin_user_secret)
    = Some generated ->
  fst (validate_credentials
         {| username := Dynr53Stack.default_user; password := provided |} w) = Ok tt
  <-> provided = generated.
Proof.
  intros Hb Hc Hs Hf.
  rewrite validate_credentials_result, get_admin_password_result, Hc.
  rewrite fetch_admin_password_result, Hb.
  change (Dynr53Stack.secret_name Dynr53Stack.admin_user_secret)
    with admin_secret in Hs.
  rewrite Hs.
  change (Dynr53Stack.generate_string_key
            (Dynr53Stack.generate_secret_string Dynr53Stack.admin_user_secret))
    with "password" in Hf.
  rewrite Hf. cbn [username password Dynr53Stack.default_user].
  change (String.eqb "admin" Dynr53Stack.default_user) with true.
  cbn [andb]. destruct (String.eqb generated provided) eqn:E.
  - apply String.eqb_eq in E. split; [intros _; now symmetry | reflexivity].
  - apply String.eqb_neq in E. split; [discriminate | intros ->; contradiction].
Qed.

End SecretProperties.

(** ** The further properties at the fixture *)

(** X1 after the first update of the fixture: the record is found. *)
Lemma is_existing_record_exists_iff_named_set_holds_value_witness :
  exists b : bool,
    is_existing_record_exists Example.hostname Example.zone_id Example.ip
      (Example.world (Serving Example.secrets) (Example.with_sets Example.two_values)) =
      (Ok b,
       after_calls
         (Example.world (Serving Example.secrets) (Example.with_sets Example.two_values))
         [ListResourceRecordSets Example.zone_id Example.hostname "A"]) /\
    (b = true <->
     exists rs r,
       In rs Example.two_values /\
       rrs_Name rs = "www.example.com." /\
       In r (rrs_ResourceRecords rs) /\
       Value r = "1.1.1.1").
Proof.
  apply (is_existing_record_exists_iff_named_set_holds_value (IP := PyIP_lib)
           Example.hostname Example.zone_id Example.ip
           (Example.world (Serving Example.secrets)
              (Example.with_sets Example.two_values))).
  - reflexivity.
  - reflexivity.
Defined.

(** X2 with the header that a chain of proxies leaves. *)
Lemma forwarded_value_not_an_address_is_not_caught_witness :
  http_status
    (fst (nic_update Example.admin Deployment.forwarded_list Example.hostname None
            Example.start)) = 500.
Proof.
  apply (forwarded_value_not_an_address_is_not_caught (IP := PyIP_lib)
           Example.admin Deployment.forwarded_list Example.hostname
           "1.1.1.1, 10.0.0.1" Example.start
           (snd (validate_credentials Example.admin Example.start))).
  - vm_compute. reflexivity.
  - reflexivity.
  - reflexivity.
Defined.

(** X3 after a change of the secret: the new password is refused. *)
Lemma cached_password_decides_whatever_the_store_holds_witness :
  validate_credentials {| username := "admin"; password := "changed67890" |}
    Deployment.rotated =
    (Raise (HTTPException 401 "badauth" [("WWW-Authenticate", "Basic")]),
     Deployment.rotated).
Proof.
  apply (cached_password_decides_whatever_the_store_holds
           {| username := "admin"; password := "changed67890" |}
           Deployment.rotated "secret12345").
  reflexivity.
Defined.


(** X5 at [localhost]. *)
Lemma single_label_hostname_is_its_own_zone_witness :
  get_hosted_zone_id_from_fqdn "localhost" Example.start =
    (Raise (HTTPException 400 "Hosted zone localhost not found" []),
     after_calls Example.start [ListHostedZonesByName "localhost"; ListHostedZones]).
Proof.
  apply (single_label_hostname_is_its_own_zone "localhost" Example.start).
  - reflexivity.
  - reflexivity.
Defined.


(** X9 at a configuration of one zone: the first statement. *)
Lemma zone_permissions_scopes_every_write_witness :
  let s :=
    {| Dynr53Stack.actions := ["route53:ChangeResourceRecordSets";
                               "route53:ListResourceRecordSets"];
       Dynr53Stack.resources := ["arn:aws:route53:::hostedzone/example.com"];
       Dynr53Stack.conditions :=
         [("ForAllValues:StringLike",
           [("route53:ChangeResourceRecordSetsNormalizedRecordNames",
             ["www.example.com"; "a.b.example.com"])])] |} in
  (exists zone_name zone_config allowed_records,
     In (zone_name, zone_config) Deployment.allowed_zones /\
     zone_config !! "allowed_records" = Some allowed_records /\
     s = {| Dynr53Stack.actions := ["route53:ChangeResourceRecordSets";
                                    "route53:ListResourceRecordSets"];
            Dynr53Stack.resources := [Deployment.arn zone_name];
            Dynr53Stack.conditions :=
              [("ForAllValues:StringLike",
                [("route53:ChangeResourceRecordSetsNormalizedRecordNames",
                  map (fun x => x +:+ "." +:+ zone_name) allowed_records)])] |}) \/
  (s = {| Dynr53Stack.actions :=
            ["route53:ListHostedZonesByName"; "route53:ListHostedZones"];
          Dynr53Stack.resources := ["*"];
          Dynr53Stack.conditions := [] |} /\
   ~ In "route53:ChangeResourceRecordSets" (Dynr53Stack.actions s)).
Proof.
  apply (zone_permissions_scopes_every_write Deployment.arn Deployment.allowed_zones
           (Dynr53Stack.zone_statements "arn:aws:route53:::hostedzone/example.com"
              ["www.example.com"; "a.b.example.com"])).
  - vm_compute. reflexivity.
  - left. reflexivity.
Defined.

(** X11 at the allowed record [a.b] of [example.com]. *)
Lemma allowed_record_resolves_to_its_zone_iff_single_label_witness :
  exists x,
    In x ["www"; "a.b"] /\
    "a.b.example.com" = x +:+ "." +:+ "example.com" /\
    (Str.has_char "." x = false -> zone_name_of "a.b.example.com" = "example.com") /\
    (Str.has_char "." x = true ->
     zone_name_of "a.b.example.com" <> "example.com" /\
     exists a b, x = a +:+ "." +:+ b /\ Str.has_char "." a = false /\
                 zone_name_of "a.b.example.com" = b +:+ "." +:+ "example.com").
Proof.
  apply (allowed_record_resolves_to_its_zone_iff_single_label
           "example.com" ["www"; "a.b"] "a.b.example.com").
  right. left. reflexivity.
Defined.

(** X12 at the fixture, whose secret is the one the stack declares. *)
Lemma provisioned_secret_authenticates_default_user_witness :
  fst (validate_credentials
         {| username := Dynr53Stack.default_user; password := "secret12345" |}
         Example.start) = Ok tt
  <-> "secret12345" = "secret12345".
Proof.
  apply (provisioned_secret_authenticates_default_user
           Example.secrets
           (<["password" := "secret12345"]> {[ "username" := "admin" ]})
           "secret12345" "secret12345" Example.start).
  - reflexivity.
  - reflexivity.
  - vm_compute. reflexivity.
  - vm_compute. reflexivity.
Defined.

(** X13 at the process that has cached the password. *)
Lemma cached_password_outlives_every_request_witness :
  admin_password_cache
    (snd (nic_update Example.admin Example.no_headers Example.hostname
            (Some Example.ip) Deployment.rotated)) = Some "secret12345".
Proof.
  apply (cached_password_outlives_every_request (IP := PyIP_lib)
           Example.admin Example.no_headers Example.hostname (Some Example.ip)
           Deployment.rotated "secret12345").
  reflexivity.
Defined.
